(** * Growth Index: the scoring engine and the Yahoo lookup route

    A shallow embedding of

    - [src/lib/growth-index.ts] (the pure calculator: consistency and
      quality factors, the weighted composite, the ranking and the
      interpretation bands), and
    - [src/routes/api/lookup-yahoo/+server.ts] (the derivation of the
      metrics from four annual statements and the batch handler), with
    - the Alpha Vantage handler behind [/api/lookup], its sibling.

    Number model.  A JavaScript [number] is modelled as a real number:
    arithmetic is exact, and there is no NaN, no infinity and no signed
    zero.  A value that may be [undefined], [null] or NaN is an
    [option R] whose [None] stands for all three. *)

From Stdlib Require Import Reals Lra Lia ZArith List String Ascii Bool.
From Stdlib Require Import Zfloor Permutation Sorted DecimalString.
Import ListNotations.

#[local] Open Scope R_scope.

(** ** Host functions of the JavaScript runtime *)

Module Js.

(** Comparisons as the booleans an [if] tests. *)
Definition ltb (x y : R) : bool := if Rlt_dec x y then true else false.
Definition leb (x y : R) : bool := if Rle_dec x y then true else false.
Definition eqb (x y : R) : bool := if Req_dec_T x y then true else false.

(** [v || d] on a possibly absent number: [undefined], [null], NaN and
    [0] are falsy. *)
Definition or_num (v : option R) (d : R) : R :=
  match v with
  | Some x => if eqb x 0 then d else x
  | None => d
  end.

(** [v || d] on a possibly absent string: the empty string is falsy. *)
Definition or_str (v : option string) (d : string) : string :=
  match v with
  | Some EmptyString => d
  | Some s => s
  | None => d
  end.

Definition Math_abs (x : R) : R := Rabs x.
Definition Math_max (x y : R) : R := Rmax x y.
Definition Math_min (x y : R) : R := Rmin x y.
Definition Math_sqrt (x : R) : R := sqrt x.

(** [Math.round]: the nearest integer, a tie going up (toward
    +infinity). *)
Definition Math_round (x : R) : R := IZR (Zfloor (x + / 2)).

(** [Math.pow] where its result is a real number: an integral exponent
    is a repeated product or its inverse; a positive base is
    [exp (y * ln x)]; a zero base with a positive exponent is [0].  What
    JavaScript answers with NaN or an infinity (a negative base with a
    fractional exponent, a zero base with a negative one) has no real
    value and is [0] here. *)
Definition Math_pow (x y : R) : R :=
  if eqb y (IZR (Zfloor y)) then powerRZ x (Zfloor y)
  else if ltb 0 x then Rpower x y
  else 0.

(** [values.reduce((a, b) => a + b, 0)] *)
Definition sum (values : list R) : R := fold_left Rplus values 0.

(** [Array.prototype.sort(compareFn)]: a stable sort; [compareFn a b]
    negative puts [a] first, positive puts [b] first, zero keeps the
    order the two came in.  Written as an insertion sort from the
    right, which is stable. *)
Fixpoint sort_insert {A : Type} (compareFn : A -> A -> R) (x : A)
    (l : list A) : list A :=
  match l with
  | [] => [x]
  | y :: l' =>
      if leb (compareFn x y) 0 then x :: y :: l'
      else y :: sort_insert compareFn x l'
  end.

Fixpoint Array_sort {A : Type} (compareFn : A -> A -> R) (l : list A)
    : list A :=
  match l with
  | [] => []
  | x :: l' => sort_insert compareFn x (Array_sort compareFn l')
  end.

(** [Array.prototype.join] on an array of strings, an [undefined]
    element printing as the empty string. *)
Definition join (sep : string) (l : list (option string)) : string :=
  String.concat sep
    (map (fun o => match o with Some s => s | None => EmptyString end) l).

(** [String.prototype.trim] and [toUpperCase] on ASCII text. *)
Definition is_space (c : ascii) : bool :=
  let n := nat_of_ascii c in
  ((9 <=? n) && (n <=? 13) || (n =? 32))%nat.

Fixpoint trimStart (s : list ascii) : list ascii :=
  match s with
  | c :: s' => if is_space c then trimStart s' else s
  | [] => []
  end.

Definition trim (s : string) : string :=
  string_of_list_ascii
    (rev (trimStart (rev (trimStart (list_ascii_of_string s))))).

Definition upper (c : ascii) : ascii :=
  let n := nat_of_ascii c in
  if ((97 <=? n) && (n <=? 122))%nat then ascii_of_nat (n - 32) else c.

Fixpoint toUpperCase (s : string) : string :=
  match s with
  | EmptyString => EmptyString
  | String c s' => String (upper c) (toUpperCase s')
  end.

(** A template literal prints a length in decimal. *)
Definition nat_to_string (n : nat) : string :=
  NilEmpty.string_of_uint (Nat.to_uint n).

(** A call either returns or throws an [Error] with a message. *)
Inductive result (A : Type) : Type :=
| Ok (a : A)
| Throw (message : string).
#[global] Arguments Ok {A} a.
#[global] Arguments Throw {A} message.

Definition bind {A B : Type} (r : result A) (k : A -> result B)
    : result B :=
  match r with
  | Ok a => k a
  | Throw m => Throw m
  end.

End Js.

Declare Scope js_scope.
Delimit Scope js_scope with js.
Infix "<?" := Js.ltb (at level 70, no associativity) : js_scope.
Infix "<=?" := Js.leb (at level 70, no associativity) : js_scope.
Infix "=?" := Js.eqb (at level 70, no associativity) : js_scope.
Notation "x >? y" := (Js.ltb y x) (at level 70, no associativity) : js_scope.
Notation "x >=? y" := (Js.leb y x) (at level 70, no associativity) : js_scope.
#[local] Open Scope js_scope.

Notation "x <- c ;; k" := (Js.bind c (fun x => k))
  (at level 61, c at next level, right associativity) : js_scope.

(** ** [src/lib/growth-index.ts] *)

Module GrowthIndex.

Import Js.

Record GrowthMetrics : Type := {
  revenueCagr : R;
  epsCagr : R;
  fcfCagr : R;
  marginDelta : R;
  annualRevenueGrowth : list R;
  roic : R;
  wacc : R
}.

Record Weights : Type := {
  revenue : R;
  eps : R;
  fcf : R;
  margin : R
}.

(** The [components] object has the field names of [Weights]; it is
    the same record here. *)
Record GrowthIndexResult : Type := {
  growthIndex : R;
  baseScore : R;
  consistencyFactor : R;
  qualityFactor : R;
  components : Weights
}.

(** The argument of [compareCompanies]. *)
Record Company : Type := {
  company_name : string;
  company_ticker : option string;
  company_metrics : GrowthMetrics
}.

Record CompanyResult : Type := {
  name : string;
  ticker : option string;
  result : GrowthIndexResult;
  metrics : GrowthMetrics
}.

Definition DEFAULT_WEIGHTS : Weights :=
  {| revenue := 0.35; eps := 0.30; fcf := 0.20; margin := 0.15 |}.

Definition stdev (values : list R) : R :=
  let n := List.length values in
  if (n <? 2)%nat then 0
  else
    let mean := sum values / INR n in
    let squaredDiffs := map (fun v => Math_pow (v - mean) 2) values in
    let variance := sum squaredDiffs / (INR n - 1) in
    Math_sqrt variance.

Definition mean (values : list R) : R :=
  if (List.length values =? 0)%nat then 0
  else sum values / INR (List.length values).

Definition calculateConsistencyFactor (annualGrowthRates : list R)
    (minCf maxCf : R) : R :=
  if (List.length annualGrowthRates <? 2)%nat then maxCf
  else
    let meanGrowth := mean annualGrowthRates in
    if meanGrowth <=? 0 then minCf
    else
      let stdGrowth := stdev annualGrowthRates in
      let coefficientOfVariation := stdGrowth / meanGrowth in
      let cf := 1 - coefficientOfVariation in
      Math_max minCf (Math_min maxCf cf).

Definition calculateQualityFactor (roic wacc minQf maxQf : R) : R :=
  if wacc <=? 0 then maxQf
  else
    let roicWaccRatio := Math_min 1.0 (roic / wacc) in
    let qf := minQf + (maxQf - minQf) * roicWaccRatio in
    qf.

(** The default values of the optional bounds. *)
Definition minCf_default : R := 0.5.
Definition maxCf_default : R := 1.0.
Definition minQf_default : R := 0.7.
Definition maxQf_default : R := 1.0.

Definition calculateGrowthIndex (metrics : GrowthMetrics)
    (weights : Weights) : GrowthIndexResult :=
  let components :=
    {| revenue := revenue weights * revenueCagr metrics;
       eps := eps weights * epsCagr metrics;
       fcf := fcf weights * fcfCagr metrics;
       margin := margin weights * marginDelta metrics |} in
  let baseScore :=
    revenue components + eps components + fcf components
    + margin components in
  let consistencyFactor :=
    calculateConsistencyFactor (annualRevenueGrowth metrics)
      minCf_default maxCf_default in
  let qualityFactor :=
    calculateQualityFactor (roic metrics) (wacc metrics)
      minQf_default maxQf_default in
  let growthIndex := baseScore * consistencyFactor * qualityFactor in
  {| growthIndex := Math_round (growthIndex * 100) / 100;
     baseScore := Math_round (baseScore * 100) / 100;
     consistencyFactor := Math_round (consistencyFactor * 1000) / 1000;
     qualityFactor := Math_round (qualityFactor * 1000) / 1000;
     components :=
       {| revenue := Math_round (revenue components * 100) / 100;
          eps := Math_round (eps components * 100) / 100;
          fcf := Math_round (fcf components * 100) / 100;
          margin := Math_round (margin components * 100) / 100 |} |}.

Definition compareCompanies (companies : list Company)
    (weights : Weights) : list CompanyResult :=
  let results :=
    map (fun company =>
           {| name := company_name company;
              ticker := company_ticker company;
              result := calculateGrowthIndex (company_metrics company)
                          weights;
              metrics := company_metrics company |})
        companies in
  Array_sort
    (fun a b => growthIndex (result b) - growthIndex (result a))
    results.

Inductive Color : Type := green | yellow | orange | red | purple.

Record Interpretation : Type := {
  label : string;
  description : string;
  color : Color
}.

Definition interpretGrowthIndex (gi : R) : Interpretation :=
  if gi >=? 40 then
    {| label := "Exceptional Growth";
       description :=
         "Hypergrowth company with outstanding metrics across all dimensions";
       color := purple |}
  else if gi >=? 25 then
    {| label := "Strong Growth";
       description :=
         "High-growth company with solid fundamentals and value creation";
       color := green |}
  else if gi >=? 15 then
    {| label := "Moderate Growth";
       description :=
         "Healthy growth with room for improvement in some areas";
       color := yellow |}
  else if gi >=? 5 then
    {| label := "Low Growth";
       description :=
         "Mature company with stable but limited growth prospects";
       color := orange |}
  else
    {| label := "Declining/Stagnant";
       description := "Company facing headwinds or in a declining phase";
       color := red |}.

(** [EXAMPLE_COMPANIES.META.metrics] *)
Definition META_metrics : GrowthMetrics :=
  {| revenueCagr := 18.8;
     epsCagr := 66.7;
     fcfCagr := 67.5;
     marginDelta := 8.3;
     annualRevenueGrowth := [15.7; 21.9; 21.3];
     roic := 34.0;
     wacc := 12.7 |}.

End GrowthIndex.

(** ** [src/routes/api/lookup-yahoo/+server.ts] *)

Module Lookup.

Import Js GrowthIndex.

Definition calcCAGR (start end_ years : R) : R :=
  if (years <=? 0) || (start =? 0) then 0
  else if (start <? 0) && (end_ >? 0) then
    (((end_ - start) / Math_abs start) * 100) / years
  else if (start >? 0) && (end_ <? 0) then
    (((end_ - start) / start) * 100) / years
  else if (start <? 0) && (end_ <? 0) then
    (((Math_abs start - Math_abs end_) / Math_abs start) * 100) / years
  else (Math_pow (end_ / start) (1 / years) - 1) * 100.

Definition calcYoY (prev curr : R) : R :=
  if prev =? 0 then 0
  else ((curr - prev) / Math_abs prev) * 100.

(** [estimateWACC] applies [beta || 1] to its argument, so the argument
    is a possibly absent number here. *)
Definition estimateWACC (beta : option R) : R :=
  let rf := 4.5 in
  let mrp := 5.5 in
  rf + Math_max 0.5 (Math_min 2.5 (or_num beta 1)) * mrp.

(** What [quoteSummary] answers, as far as [fetchCompanyData] reads it
    for the score: the annual income and cash-flow statements, newest
    first, [defaultKeyStatistics?.beta], [financialData?.returnOnEquity]
    and the two names of [price]. *)
Record IncomeStatement : Type := {
  totalRevenue : option R;
  operatingIncome : option R;
  netIncome : option R
}.

Record CashflowStatement : Type := {
  totalCashFromOperatingActivities : option R;
  capitalExpenditures : option R
}.

Record QuoteSummary : Type := {
  incomeStatementHistory : option (list IncomeStatement);
  cashflowStatements : option (list CashflowStatement);
  beta : option R;
  returnOnEquity : option R;
  longName : option string;
  shortName : option string
}.

Definition rev (y : IncomeStatement) : R := or_num (totalRevenue y) 0.
Definition opInc (y : IncomeStatement) : R := or_num (operatingIncome y) 0.
(** [y.netIncome && y.netIncome !== 0]: present, truthy and not zero. *)
Definition eps (y : IncomeStatement) : R :=
  match netIncome y with
  | Some x => if negb (x =? 0) && negb (x =? 0) then x else 0
  | None => 0
  end.
Definition fcf (c : CashflowStatement) : R :=
  or_num (totalCashFromOperatingActivities c) 0
  - Math_abs (or_num (capitalExpenditures c) 0).

(** [income[i]] past the end is [undefined]; the length checks of
    [fetchCompanyData] come first, so this default is never read. *)
Definition no_income : IncomeStatement :=
  {| totalRevenue := None; operatingIncome := None; netIncome := None |}.
Definition no_cashFlow : CashflowStatement :=
  {| totalCashFromOperatingActivities := None;
     capitalExpenditures := None |}.

(** The constants [fetchCompanyData] computes between its length
    checks and its call of [calculateGrowthIndex], gathered in the
    object it passes to that call. *)
Definition deriveMetrics (income : list IncomeStatement)
    (cashFlow : list CashflowStatement) (summary : QuoteSummary)
    : GrowthMetrics :=
  let y0 := nth 0 income no_income in
  let y1 := nth 1 income no_income in
  let y2 := nth 2 income no_income in
  let y3 := nth 3 income no_income in
  let revenueCagr := calcCAGR (rev y3) (rev y0) 3 in
  let epsCagr := calcCAGR (eps y3) (eps y0) 3 in
  let fcfCagr :=
    calcCAGR (fcf (nth 3 cashFlow no_cashFlow))
      (fcf (nth 0 cashFlow no_cashFlow)) 3 in
  let margin0 := if rev y0 >? 0 then (opInc y0 / rev y0) * 100 else 0 in
  let margin3 := if rev y3 >? 0 then (opInc y3 / rev y3) * 100 else 0 in
  let marginDelta := margin0 - margin3 in
  let annualRevenueGrowth :=
    [calcYoY (rev y3) (rev y2);
     calcYoY (rev y2) (rev y1);
     calcYoY (rev y1) (rev y0)] in
  let beta := or_num (beta summary) 1 in
  let roic := or_num (returnOnEquity summary) 0.15 * 100 in
  let wacc := estimateWACC (Some beta) in
  {| revenueCagr := revenueCagr;
     epsCagr := epsCagr;
     fcfCagr := fcfCagr;
     marginDelta := marginDelta;
     annualRevenueGrowth := annualRevenueGrowth;
     roic := roic;
     wacc := wacc |}.

(** The [metrics] object of the answer: six of the seven metrics. *)
Record ReportedMetrics : Type := {
  revenueCagr : R;
  epsCagr : R;
  fcfCagr : R;
  marginDelta : R;
  roic : R;
  wacc : R
}.

(** The answer of [fetchCompanyData].  Its [company], [market],
    [priceHistory] and [revenueHistory] fields only copy provider data
    for display and are left out. *)
Record CompanyData : Type := {
  ticker : string;
  name : string;
  growthIndex : R;
  baseScore : R;
  consistencyFactor : R;
  qualityFactor : R;
  metrics : ReportedMetrics;
  interpretation : Interpretation;
  weights : Weights
}.

(** An element of [results]: a company's data, or
    [{ ticker, error }]. *)
Inductive BatchEntry : Type :=
| Entry_data (data : CompanyData)
| Entry_error (ticker : string) (error : string).

(** ["error" in r] and [r.error] *)
Definition has_error (r : BatchEntry) : bool :=
  match r with Entry_data _ => false | Entry_error _ _ => true end.
Definition entry_error (r : BatchEntry) : option string :=
  match r with Entry_data _ => None | Entry_error _ e => Some e end.

(** The JSON body of the answer: [{ success: false, error }] or
    [{ success: true, data }]. *)
Inductive JsonBody : Type :=
| Failure (error : string)
| Success (data : list BatchEntry).

Definition success (b : JsonBody) : bool :=
  match b with Failure _ => false | Success _ => true end.

Record Response : Type := { status : nat; body : JsonBody }.

Section Route.

(** [yahooFinance.quoteSummary]: the provider's answer for a ticker,
    or the error it throws.  The [chart] call made beside it never
    throws ([.catch(() => null)]) and only feeds [priceHistory]. *)
Variable quoteSummary : string -> Js.result QuoteSummary.

Definition fetchCompanyData (ticker : string) : Js.result CompanyData :=
  summary <- quoteSummary ticker ;;
  match incomeStatementHistory summary with
  | None | Some [] => Throw ("No income data for " ++ ticker)%string
  | Some income =>
      if (List.length income <? 4)%nat then
        Throw ("Need 4yr data for " ++ ticker ++ ", got "
               ++ nat_to_string (List.length income))%string
      else
        match cashflowStatements summary with
        | None | Some [] => Throw ("Need 4yr cash flow for " ++ ticker)%string
        | Some cashFlow =>
            if (List.length cashFlow <? 4)%nat then
              Throw ("Need 4yr cash flow for " ++ ticker)%string
            else
              let m := deriveMetrics income cashFlow summary in
              let gi := calculateGrowthIndex m DEFAULT_WEIGHTS in
              Ok
                {| ticker := toUpperCase ticker;
                   name :=
                     or_str (longName summary)
                       (or_str (shortName summary) ticker);
                   growthIndex := GrowthIndex.growthIndex gi;
                   baseScore := GrowthIndex.baseScore gi;
                   consistencyFactor := GrowthIndex.consistencyFactor gi;
                   qualityFactor := GrowthIndex.qualityFactor gi;
                   metrics :=
                     {| revenueCagr :=
                          Math_round (GrowthIndex.revenueCagr m * 10) / 10;
                        epsCagr :=
                          Math_round (GrowthIndex.epsCagr m * 10) / 10;
                        fcfCagr :=
                          Math_round (GrowthIndex.fcfCagr m * 10) / 10;
                        marginDelta :=
                          Math_round (GrowthIndex.marginDelta m * 10) / 10;
                        roic := Math_round (GrowthIndex.roic m * 10) / 10;
                        wacc := Math_round (GrowthIndex.wacc m * 10) / 10
                     |};
                   interpretation :=
                     interpretGrowthIndex (GrowthIndex.growthIndex gi);
                   weights :=
                     {| revenue := 0.30;
                        GrowthIndex.eps := 0.25;
                        GrowthIndex.fcf := 0.25;
                        margin := 0.20 |} |}
        end
  end.

(** One turn of the [for] loop: the entry pushed for ticker [t]. *)
Definition entry_of (t : string) : BatchEntry :=
  match fetchCompanyData (toUpperCase (trim t)) with
  | Ok data => Entry_data data
  | Throw message => Entry_error (toUpperCase t) message
  end.

(** The handler on the parsed request body, whose [tickers] may be
    absent.  Its tickers are strings, so nothing outside
    [fetchCompanyData] throws and the outer [catch] (status 500) is
    not reached. *)
Definition POST (tickers : option (list string)) : Response :=
  match tickers with
  | None | Some [] => {| status := 400; body := Failure "No tickers" |}
  | Some tickers =>
      let results :=
        fold_left (fun results t => results ++ [entry_of t])
          (firstn 10 tickers) [] in
      let ok := filter (fun r => negb (has_error r)) results in
      if (List.length ok =? 0)%nat then
        {| status := 400;
           body := Failure (join "; " (map entry_error results)) |}
      else {| status := 200; body := Success ok |}
  end.

(** The whole handler, with what makes it leave through the outer
    [catch].  An element of [tickers] is a text or some other JSON
    value; on the latter [t.trim()] throws inside the inner [try], and in
    the inner [catch] [t.toUpperCase()] throws again, a TypeError whose
    [message] is the host's. *)
Inductive Ticker : Type :=
| Text (t : string)
| NotText (message : string).

(** The request: [Unreadable] when [request.json()] rejects, when the
    body cannot be destructured, or when [tickers] has a length but no
    [slice], each with the message of the error thrown; [Tickers]
    otherwise, [None] standing for a [tickers] that is absent or has no
    length.  (A [tickers] that is one text is iterated by character.) *)
Inductive RequestBody : Type :=
| Unreadable (message : string)
| Tickers (tickers : option (list Ticker)).

(** The [for] loop: it stops at the first element that is not a text,
    with the error that reaches the outer [catch]. *)
Fixpoint loop (tickers : list Ticker) (results : list BatchEntry)
    : Js.result (list BatchEntry) :=
  match tickers with
  | [] => Ok results
  | Text t :: tickers => loop tickers (results ++ [entry_of t])
  | NotText message :: _ => Throw message
  end.

Definition handler (request : RequestBody) : Response :=
  match request with
  | Unreadable message => {| status := 500; body := Failure message |}
  | Tickers None | Tickers (Some []) =>
      {| status := 400; body := Failure "No tickers" |}
  | Tickers (Some tickers) =>
      match loop (firstn 10 tickers) [] with
      | Throw message => {| status := 500; body := Failure message |}
      | Ok results =>
          let ok := filter (fun r => negb (has_error r)) results in
          if (List.length ok =? 0)%nat then
            {| status := 400;
               body := Failure (join "; " (map entry_error results)) |}
          else {| status := 200; body := Success ok |}
      end
  end.

End Route.

(** The price figures of the answer's [market] object, from [price] and
    [summaryDetail], either of which may be absent ([price?.field]). *)
Record Price : Type := {
  regularMarketPrice : option R;
  regularMarketPreviousClose : option R
}.

Record SummaryDetail : Type := {
  fiftyTwoWeekHigh : option R;
  fiftyTwoWeekLow : option R
}.

(** [o?.field] *)
Definition optional {A : Type} (o : option A) (field : A -> option R)
    : option R :=
  match o with
  | Some a => field a
  | None => None
  end.

Definition currentPrice (price : option Price) : R :=
  or_num (optional price regularMarketPrice) 0.

Definition previousClose (price : option Price) : R :=
  or_num (optional price regularMarketPreviousClose) (currentPrice price).

Definition priceChange (price : option Price) : R :=
  currentPrice price - previousClose price.

Definition priceChangePercent (price : option Price) : R :=
  if previousClose price >? 0 then
    (priceChange price / previousClose price) * 100
  else 0.

Definition fromHigh (price : option Price) (detail : option SummaryDetail)
    : R :=
  let fiftyTwoWeekHigh := or_num (optional detail fiftyTwoWeekHigh) 0 in
  if fiftyTwoWeekHigh >? 0 then
    ((currentPrice price - fiftyTwoWeekHigh) / fiftyTwoWeekHigh) * 100
  else 0.

Definition fromLow (price : option Price) (detail : option SummaryDetail)
    : R :=
  let fiftyTwoWeekLow := or_num (optional detail fiftyTwoWeekLow) 0 in
  if fiftyTwoWeekLow >? 0 then
    ((currentPrice price - fiftyTwoWeekLow) / fiftyTwoWeekLow) * 100
  else 0.

(** The two distances as the [market] object of the answer reports
    them: [Math.round(fromHigh * 10) / 10] and the same for [fromLow]. *)
Definition market_fromHigh (price : option Price)
    (detail : option SummaryDetail) : R :=
  Math_round (fromHigh price detail * 10) / 10.

Definition market_fromLow (price : option Price)
    (detail : option SummaryDetail) : R :=
  Math_round (fromLow price detail * 10) / 10.

End Lookup.

(** ** The Alpha Vantage lookup route (the handler behind [/api/lookup])

    Its [calcCAGR], [calcYoY] and [estimateWACC] are copies, letter for
    letter, of those of the Yahoo route, and are the definitions of
    [Lookup] here.  The pause between two requests ([delay]) is not
    modelled, and [currentApiKey], which [POST] sets before its loop, is
    an argument of what reads it. *)

Module AlphaVantage.

Import Js GrowthIndex.

Definition BASE : string := "https://www.alphavantage.co/query".

(** An annual report and a response body, as far as the route reads
    them: every field is a string or is missing. *)
Record Report : Type := {
  totalRevenue : option string;
  operatingIncome : option string;
  reportedEPS : option string;
  operatingCashflow : option string;
  capitalExpenditures : option string
}.

Record AvJson : Type := {
  Error_Message : option string;
  Note : option string;
  Information : option string;
  annualReports : option (list Report);
  Name : option string;
  Beta : option string;
  ReturnOnEquityTTM : option string
}.

Record HttpResponse : Type := {
  ok : bool;
  status : nat;
  json : Js.result AvJson
}.

(** A string in a condition: missing and empty are falsy. *)
Definition truthy (v : option string) : bool :=
  match v with
  | Some (String _ _) => true
  | _ => false
  end.

Definition no_report : Report :=
  {| totalRevenue := None; operatingIncome := None; reportedEPS := None;
     operatingCashflow := None; capitalExpenditures := None |}.

Record CompanyData : Type := {
  ticker : string;
  name : string;
  growthIndex : R;
  baseScore : R;
  consistencyFactor : R;
  qualityFactor : R;
  metrics : Lookup.ReportedMetrics;
  interpretation : Interpretation
}.

Inductive BatchEntry : Type :=
| Entry_data (data : CompanyData)
| Entry_error (ticker : string) (error : string).

Definition has_error (r : BatchEntry) : bool :=
  match r with Entry_data _ => false | Entry_error _ _ => true end.
Definition entry_error (r : BatchEntry) : option string :=
  match r with Entry_data _ => None | Entry_error _ e => Some e end.

Inductive JsonBody : Type :=
| Failure (error : string)
| Success (data : list BatchEntry).

(** [code] is the HTTP status of the answer. *)
Record Response : Type := { code : nat; body : JsonBody }.

Section Route.

(** [parseFloat] on a string ([None] for NaN) and the [fetch] of the
    runtime, which answers or throws. *)
Variable parseFloat : string -> option R.
Variable fetch : string -> Js.result HttpResponse.

(** [parseFloat(field)]: a missing field parses to NaN. *)
Definition parse (field : option string) : option R :=
  match field with
  | Some s => parseFloat s
  | None => None
  end.

Definition fetchAV (currentApiKey fn ticker : string) : Js.result AvJson :=
  if String.eqb currentApiKey "" then
    Throw "Alpha Vantage API key not provided"
  else
    let url :=
      (BASE ++ "?function=" ++ fn ++ "&symbol=" ++ ticker ++ "&apikey="
       ++ currentApiKey)%string in
    res <- fetch url ;;
    if negb (ok res) then
      Throw ("Alpha Vantage " ++ nat_to_string (status res))%string
    else
      data <- json res ;;
      match Error_Message data with
      | Some (String c m) => Throw (String c m)
      | _ =>
          if truthy (Note data) || truthy (Information data) then
            Throw "Rate limit - wait 60s"
          else Ok data
      end.

Definition rev (y : Report) : R := or_num (parse (totalRevenue y)) 0.
Definition opInc (y : Report) : R := or_num (parse (operatingIncome y)) 0.
Definition eps (y : Report) : R := or_num (parse (reportedEPS y)) 0.
Definition fcf (c : Report) : R :=
  or_num (parse (operatingCashflow c)) 0
  - Math_abs (or_num (parse (capitalExpenditures c)) 0).

(** The constants [fetchCompanyData] computes between its length checks
    and its call of [calculateGrowthIndex]. *)
Definition deriveMetrics (income cashFlow : list Report) (overview : AvJson)
    : GrowthMetrics :=
  let y0 := nth 0 income no_report in
  let y1 := nth 1 income no_report in
  let y2 := nth 2 income no_report in
  let y3 := nth 3 income no_report in
  let revenueCagr := Lookup.calcCAGR (rev y3) (rev y0) 3 in
  let epsCagr := Lookup.calcCAGR (eps y3) (eps y0) 3 in
  let fcfCagr :=
    Lookup.calcCAGR (fcf (nth 3 cashFlow no_report))
      (fcf (nth 0 cashFlow no_report)) 3 in
  let margin0 := if rev y0 >? 0 then (opInc y0 / rev y0) * 100 else 0 in
  let margin3 := if rev y3 >? 0 then (opInc y3 / rev y3) * 100 else 0 in
  let marginDelta := margin0 - margin3 in
  let annualRevenueGrowth :=
    [Lookup.calcYoY (rev y3) (rev y2);
     Lookup.calcYoY (rev y2) (rev y1);
     Lookup.calcYoY (rev y1) (rev y0)] in
  let roic :=
    or_num (option_map (fun x => x * 100) (parse (ReturnOnEquityTTM overview)))
      15 in
  let wacc :=
    Lookup.estimateWACC (Some (or_num (parse (Beta overview)) 1)) in
  {| revenueCagr := revenueCagr;
     epsCagr := epsCagr;
     fcfCagr := fcfCagr;
     marginDelta := marginDelta;
     annualRevenueGrowth := annualRevenueGrowth;
     roic := roic;
     wacc := wacc |}.

Definition fetchCompanyData (currentApiKey ticker : string)
    : Js.result CompanyData :=
  incomeData <- fetchAV currentApiKey "INCOME_STATEMENT" ticker ;;
  cashFlowData <- fetchAV currentApiKey "CASH_FLOW" ticker ;;
  overview <- fetchAV currentApiKey "OVERVIEW" ticker ;;
  match annualReports incomeData with
  | None | Some [] => Throw ("No income data for " ++ ticker)%string
  | Some income =>
      if (List.length income <? 4)%nat then
        Throw ("Need 4yr data for " ++ ticker ++ ", got "
               ++ nat_to_string (List.length income))%string
      else
        match annualReports cashFlowData with
        | None | Some [] => Throw ("Need 4yr cash flow for " ++ ticker)%string
        | Some cashFlow =>
            if (List.length cashFlow <? 4)%nat then
              Throw ("Need 4yr cash flow for " ++ ticker)%string
            else
              let m := deriveMetrics income cashFlow overview in
              let gi := calculateGrowthIndex m DEFAULT_WEIGHTS in
              Ok
                {| ticker := toUpperCase ticker;
                   name := or_str (Name overview) ticker;
                   growthIndex := GrowthIndex.growthIndex gi;
                   baseScore := GrowthIndex.baseScore gi;
                   consistencyFactor := GrowthIndex.consistencyFactor gi;
                   qualityFactor := GrowthIndex.qualityFactor gi;
                   metrics :=
                     {| Lookup.revenueCagr :=
                          Math_round (GrowthIndex.revenueCagr m * 10) / 10;
                        Lookup.epsCagr :=
                          Math_round (GrowthIndex.epsCagr m * 10) / 10;
                        Lookup.fcfCagr :=
                          Math_round (GrowthIndex.fcfCagr m * 10) / 10;
                        Lookup.marginDelta :=
                          Math_round (GrowthIndex.marginDelta m * 10) / 10;
                        Lookup.roic :=
                          Math_round (GrowthIndex.roic m * 10) / 10;
                        Lookup.wacc :=
                          Math_round (GrowthIndex.wacc m * 10) / 10 |};
                   interpretation :=
                     interpretGrowthIndex (GrowthIndex.growthIndex gi) |}
        end
  end.

Definition entry_of (currentApiKey t : string) : BatchEntry :=
  match fetchCompanyData currentApiKey (toUpperCase (trim t)) with
  | Ok data => Entry_data data
  | Throw message => Entry_error (toUpperCase t) message
  end.

(** The handler on the parsed request body [{ tickers, apiKey }], either
    of which may be absent. *)
Definition POST (tickers : option (list string)) (apiKey : option string)
    : Response :=
  match tickers with
  | None | Some [] => {| code := 400; body := Failure "No tickers" |}
  | Some tickers =>
      match apiKey with
      | None | Some EmptyString =>
          {| code := 400;
             body := Failure "Alpha Vantage API key required" |}
      | Some currentApiKey =>
          let results :=
            fold_left
              (fun results t => results ++ [entry_of currentApiKey t])
              (firstn 5 tickers) [] in
          let ok := filter (fun r => negb (has_error r)) results in
          if (List.length ok =? 0)%nat then
            {| code := 400;
               body := Failure (join "; " (map entry_error results)) |}
          else {| code := 200; body := Success ok |}
      end
  end.

(** The statements and the overview in the shape the Yahoo route reads:
    each amount parsed, reported earnings per share in the place of net
    income. *)
Definition asIncome (y : Report) : Lookup.IncomeStatement :=
  {| Lookup.totalRevenue := parse (totalRevenue y);
     Lookup.operatingIncome := parse (operatingIncome y);
     Lookup.netIncome := parse (reportedEPS y) |}.

Definition asCashflow (c : Report) : Lookup.CashflowStatement :=
  {| Lookup.totalCashFromOperatingActivities := parse (operatingCashflow c);
     Lookup.capitalExpenditures := parse (capitalExpenditures c) |}.

Definition asSummary (income cashFlow : list Report) (overview : AvJson)
    : Lookup.QuoteSummary :=
  {| Lookup.incomeStatementHistory := Some (map asIncome income);
     Lookup.cashflowStatements := Some (map asCashflow cashFlow);
     Lookup.beta := parse (Beta overview);
     Lookup.returnOnEquity := parse (ReturnOnEquityTTM overview);
     Lookup.longName := Name overview;
     Lookup.shortName := None |}.

End Route.

End AlphaVantage.

(** ** The vocabulary of the specification

    What the specification's sentences say in their own words, to be
    compared with the code above. *)

Module Spec.

Import Js.

(** [clamp(x, lo, hi)] *)
Definition clamp (x lo hi : R) : R :=
  if x <? lo then lo else if hi <? x then hi else x.

(** "beta (float, default 1.0 if absent/invalid)" *)
Definition beta_or_default (beta : option R) : R :=
  match beta with
  | Some b => b
  | None => 1.0
  end.

(** "riskFreeRate(4.5) + clamp(beta, 0.5, 2.5) * marketRiskPremium(5.5)" *)
Definition waccEstimate (beta : option R) : R :=
  4.5 + clamp (beta_or_default beta) 0.5 2.5 * 5.5.





(** The arithmetic mean and the sample standard deviation (divisor
    [n - 1]) of a series. *)
Definition total (g : list R) : R := fold_right Rplus 0 g.

Definition mean (g : list R) : R := total g / INR (List.length g).

Definition sampleStdev (g : list R) : R :=
  sqrt (total (map (fun x => (x - mean g) ^ 2) g)
        / (INR (List.length g) - 1)).

(** The five bands of the interpretation. *)
Definition band (gi : R) : string :=
  if 40 <=? gi then "Exceptional Growth"
  else if (25 <=? gi) && (gi <? 40) then "Strong Growth"
  else if (15 <=? gi) && (gi <? 25) then "Moderate Growth"
  else if (5 <=? gi) && (gi <? 15) then "Low Growth"
  else "Declining/Stagnant".

(** [s] occurs in [t]. *)
Definition contains (t s : string) : Prop :=
  exists before after : string, t = (before ++ s ++ after)%string.

(** The same as a test: [s] is a prefix of [t] or occurs further on. *)
Fixpoint occursb (s t : string) : bool :=
  String.prefix s t
  || match t with
     | EmptyString => false
     | String _ t' => occursb s t'
     end.


(** The tickers the handler processes, and what the pipeline of one of
    them does: the handler runs [fetchCompanyData] on the trimmed,
    upper-cased ticker. *)
Definition processed (tickers : list string) : list string :=
  firstn 10 tickers.

Definition pipeline (quoteSummary : string -> Js.result Lookup.QuoteSummary)
    (t : string) : Js.result Lookup.CompanyData :=
  Lookup.fetchCompanyData quoteSummary (toUpperCase (trim t)).

(** The successful results of a batch, in input order. *)
Definition successes (quoteSummary : string -> Js.result Lookup.QuoteSummary)
    (tickers : list string) : list Lookup.CompanyData :=
  flat_map (fun t => match pipeline quoteSummary t with
                     | Ok data => [data]
                     | Throw _ => []
                     end)
    tickers.

(** The failure reasons of a batch, in input order. *)
Definition reasons (quoteSummary : string -> Js.result Lookup.QuoteSummary)
    (tickers : list string) : list string :=
  flat_map (fun t => match pipeline quoteSummary t with
                     | Ok _ => []
                     | Throw message => [message]
                     end)
    tickers.

(** The result of ranking one company. *)
Definition ranked (weights : GrowthIndex.Weights)
    (company : GrowthIndex.Company) : GrowthIndex.CompanyResult :=
  {| GrowthIndex.name := GrowthIndex.company_name company;
     GrowthIndex.ticker := GrowthIndex.company_ticker company;
     GrowthIndex.result :=
       GrowthIndex.calculateGrowthIndex
         (GrowthIndex.company_metrics company) weights;
     GrowthIndex.metrics := GrowthIndex.company_metrics company |}.

(** The weighted sum and the product that [calculateGrowthIndex] rounds:
    "baseScore = weights.revenue*revenueCagr + weights.eps*epsCagr +
    weights.fcf*fcfCagr + weights.margin*marginDelta" and "growthIndex =
    baseScore * consistencyFactor * qualityFactor". *)
Definition rawBaseScore (m : GrowthIndex.GrowthMetrics)
    (w : GrowthIndex.Weights) : R :=
  GrowthIndex.revenue w * GrowthIndex.revenueCagr m
  + GrowthIndex.eps w * GrowthIndex.epsCagr m
  + GrowthIndex.fcf w * GrowthIndex.fcfCagr m
  + GrowthIndex.margin w * GrowthIndex.marginDelta m.

Definition rawGrowthIndex (m : GrowthIndex.GrowthMetrics)
    (w : GrowthIndex.Weights) : R :=
  rawBaseScore m w
  * GrowthIndex.calculateConsistencyFactor
      (GrowthIndex.annualRevenueGrowth m)
      GrowthIndex.minCf_default GrowthIndex.maxCf_default
  * GrowthIndex.calculateQualityFactor (GrowthIndex.roic m)
      (GrowthIndex.wacc m) GrowthIndex.minQf_default
      GrowthIndex.maxQf_default.

End Spec.

(** ** Sample provider data *)

Module Sample.

Import Js Lookup.

Definition year (revenue income : option R) : IncomeStatement :=
  {| totalRevenue := revenue;
     operatingIncome := None;
     netIncome := income |}.

(** Flat revenue of 400 and a loss that grows from 400 to 403 over the
    three years; no cash-flow figures, no beta, no return on equity. *)
Definition loss_summary : QuoteSummary :=
  {| incomeStatementHistory :=
       Some [year (Some 400) (Some (-403)); year (Some 400) None;
             year (Some 400) None; year (Some 400) (Some (-400))];
     cashflowStatements :=
       Some [no_cashFlow; no_cashFlow; no_cashFlow; no_cashFlow];
     beta := None;
     returnOnEquity := None;
     longName := Some "Loss Corp"%string;
     shortName := None |}.


(** A company listed two years ago. *)
Definition new_summary : QuoteSummary :=
  {| incomeStatementHistory :=
       Some [year (Some 120) (Some 10); year (Some 100) (Some 8)];
     cashflowStatements := Some [no_cashFlow; no_cashFlow];
     beta := Some 1.2;
     returnOnEquity := Some 0.2;
     longName := None;
     shortName := Some "New Inc"%string |}.

(** A provider that knows these two companies and throws for any other
    symbol. *)
Definition quoteSummary (t : string) : Js.result QuoteSummary :=
  if String.eqb t "LOSS" then Ok loss_summary
  else if String.eqb t "NEW" then Ok new_summary
  else Throw ("Quote not found for symbol: " ++ t)%string.

(** The score of the example company of [growth-index.ts]. *)
Definition META_result : GrowthIndex.GrowthIndexResult :=
  GrowthIndex.calculateGrowthIndex GrowthIndex.META_metrics
    GrowthIndex.DEFAULT_WEIGHTS.

(** A quote of 90 with no previous close, inside a 52-week range of 60
    to 120. *)
Definition quote : option Price :=
  Some {| regularMarketPrice := Some 90;
          regularMarketPreviousClose := None |}.

Definition range : option SummaryDetail :=
  Some {| fiftyTwoWeekHigh := Some 120; fiftyTwoWeekLow := Some 60 |}.

(** An Alpha Vantage server that answers every request with the same
    four reports, and one that answers with a rate-limit note; a
    [parseFloat] for the two amounts they use. *)
Definition av_report (revenue : string) : AlphaVantage.Report :=
  {| AlphaVantage.totalRevenue := Some revenue;
     AlphaVantage.operatingIncome := None;
     AlphaVantage.reportedEPS := None;
     AlphaVantage.operatingCashflow := None;
     AlphaVantage.capitalExpenditures := None |}.

Definition av_body (note : option string) : AlphaVantage.AvJson :=
  {| AlphaVantage.Error_Message := None;
     AlphaVantage.Note := note;
     AlphaVantage.Information := None;
     AlphaVantage.annualReports :=
       Some [av_report "121"; av_report "100"; av_report "100";
             av_report "100"]%string;
     AlphaVantage.Name := Some "Sample Corp"%string;
     AlphaVantage.Beta := None;
     AlphaVantage.ReturnOnEquityTTM := None |}.

Definition av_fetch (url : string) : Js.result AlphaVantage.HttpResponse :=
  Ok {| AlphaVantage.ok := true;
        AlphaVantage.status := 200;
        AlphaVantage.json := Ok (av_body None) |}.

Definition av_fetch_limited (url : string)
    : Js.result AlphaVantage.HttpResponse :=
  Ok {| AlphaVantage.ok := true;
        AlphaVantage.status := 200;
        AlphaVantage.json :=
          Ok (av_body (Some "Thank you for using Alpha Vantage!"%string)) |}.

Definition parseFloat (s : string) : option R :=
  if String.eqb s "121" then Some 121
  else if String.eqb s "100" then Some 100
  else None.

(** Eleven symbols the sample provider does not know. *)
Definition eleven : list string :=
  ["AA"; "BB"; "CC"; "DD"; "EE"; "FF"; "GG"; "HH"; "II"; "JJ"; "KK"]%string.

(** [EXAMPLE_COMPANIES.APPLE] *)
Definition APPLE_company : GrowthIndex.Company :=
  {| GrowthIndex.company_name := "Apple";
     GrowthIndex.company_ticker := Some "AAPL"%string;
     GrowthIndex.company_metrics :=
       {| GrowthIndex.revenueCagr := -0.4;
          GrowthIndex.epsCagr := -0.2;
          GrowthIndex.fcfCagr := -1.2;
          GrowthIndex.marginDelta := 1.0;
          GrowthIndex.annualRevenueGrowth := [-2.8; 2.0; 6.4];
          GrowthIndex.roic := 48.0;
          GrowthIndex.wacc := 10.1 |} |}.

(** [EXAMPLE_COMPANIES.META] *)
Definition META_company : GrowthIndex.Company :=
  {| GrowthIndex.company_name := "Meta Platforms";
     GrowthIndex.company_ticker := Some "META"%string;
     GrowthIndex.company_metrics := GrowthIndex.META_metrics |}.

End Sample.

(** * Properties *)

(** ** Comparisons and host functions *)

Section HostFacts.

Import Js.

Lemma ltb_lt (x y : R) : (x <? y) = true <-> x < y.
Proof. unfold ltb. destruct (Rlt_dec x y); split; intros; (easy || lra). Qed.

Lemma leb_le (x y : R) : (x <=? y) = true <-> x <= y.
Proof. unfold leb. destruct (Rle_dec x y); split; intros; (easy || lra). Qed.

Lemma eqb_eq (x y : R) : (x =? y) = true <-> x = y.
Proof. unfold eqb. destruct (Req_dec_T x y); split; intros; (easy || lra). Qed.

End HostFacts.

(** Case analysis on every comparison the goal tests, closing the
    branches that linear arithmetic settles. *)
Ltac js_compare :=
  unfold Js.ltb, Js.leb, Js.eqb in *;
  repeat match goal with
    | |- context [Rlt_dec ?x ?y] => destruct (Rlt_dec x y)
    | |- context [Rle_dec ?x ?y] => destruct (Rle_dec x y)
    | |- context [Req_dec_T ?x ?y] => destruct (Req_dec_T x y)
    end;
  simpl; try lra.

(** The same for [Math.max] and [Math.min]. *)
Ltac js_minmax :=
  unfold Js.Math_max, Js.Math_min, Rmax, Rmin in *;
  repeat match goal with
    | H : context [Rle_dec ?x ?y] |- _ => destruct (Rle_dec x y)
    | |- context [Rle_dec ?x ?y] => destruct (Rle_dec x y)
    end;
  try lra.

Section HostFacts2.

Import Js.

Lemma Math_round_int (z : Z) (x : R) :
  IZR z - / 2 <= x < IZR z + / 2 -> Math_round x = IZR z.
Proof.
  intros H. unfold Math_round. f_equal. apply Zfloor_eq. lra.
Qed.


Lemma Math_pow_2 (x : R) : Math_pow x 2 = x * x.
Proof.
  unfold Math_pow. replace (Zfloor 2) with 2%Z by (symmetry; apply ZfloorZ).
  js_compare.
Qed.

Lemma Math_pow_pos (x y : R) : 0 < x -> Math_pow x y = Rpower x y.
Proof.
  intros Hx. unfold Math_pow.
  destruct (eqb_eq y (IZR (Zfloor y))) as [H1 _].
  destruct (y =? IZR (Zfloor y)).
  - rewrite (H1 eq_refl) at 2. now apply powerRZ_Rpower.
  - apply ltb_lt in Hx. now rewrite Hx.
Qed.

Lemma Math_pow_one (y : R) : Math_pow 1 y = 1.
Proof.
  rewrite Math_pow_pos by lra. unfold Rpower.
  rewrite ln_1, Rmult_0_r. apply exp_0.
Qed.

Lemma Math_pow_zero_base (y : R) : 0 < y -> Math_pow 0 y = 0.
Proof.
  intros Hy. unfold Math_pow.
  destruct (eqb_eq y (IZR (Zfloor y))) as [H1 _].
  destruct (y =? IZR (Zfloor y)).
  - specialize (H1 eq_refl).
    assert (Hz : (0 < Zfloor y)%Z) by (apply lt_IZR; lra).
    destruct (Zfloor y) as [| p | p]; try lia.
    simpl. apply pow_i. apply Pos2Nat.is_pos.
  - unfold ltb. destruct (Rlt_dec 0 0); [lra | reflexivity].
Qed.

End HostFacts2.

(** ** The growth rate [calcCAGR] and where its arguments come from *)

Section CAGR.

Import Js Lookup.


Lemma calcCAGR_neg_pos (start end_ years : R) :
  0 < years -> start < 0 -> 0 < end_ ->
  calcCAGR start end_ years = ((end_ - start) / Rabs start) * 100 / years.
Proof. intros; unfold calcCAGR, Math_abs; js_compare. Qed.

Lemma calcCAGR_pos_neg (start end_ years : R) :
  0 < years -> 0 < start -> end_ < 0 ->
  calcCAGR start end_ years = ((end_ - start) / start) * 100 / years.
Proof. intros; unfold calcCAGR; js_compare. Qed.

Lemma calcCAGR_neg_neg (start end_ years : R) :
  0 < years -> start < 0 -> end_ < 0 ->
  calcCAGR start end_ years
  = ((Rabs start - Rabs end_) / Rabs start) * 100 / years.
Proof. intros; unfold calcCAGR, Math_abs; js_compare. Qed.

Lemma calcCAGR_otherwise (start end_ years : R) :
  0 < years -> start <> 0 ->
  ~ (start < 0 /\ 0 < end_) -> ~ (0 < start /\ end_ < 0) ->
  ~ (start < 0 /\ end_ < 0) ->
  calcCAGR start end_ years
  = (Math_pow (end_ / start) (1 / years) - 1) * 100.
Proof. intros; unfold calcCAGR; js_compare; tauto. Qed.

(** In the last branch the base of the power is never negative, and it
    is the positive-base power when both values are positive. *)
Lemma calcCAGR_compound (start end_ years : R) :
  0 < years -> 0 < start -> 0 < end_ ->
  calcCAGR start end_ years
  = (Rpower (end_ / start) (1 / years) - 1) * 100.
Proof.
  intros Hy Hs He. rewrite calcCAGR_otherwise by lra.
  rewrite Math_pow_pos; [reflexivity | now apply Rdiv_lt_0_compat].
Qed.

Example calcCAGR_no_growth : calcCAGR 100 100 3 = 0.
Proof.
  rewrite calcCAGR_otherwise by lra.
  replace (100 / 100) with 1 by lra. rewrite Math_pow_one. lra.
Qed.

Example calcCAGR_swing : calcCAGR (-100) 50 3 = 50.
Proof.
  rewrite calcCAGR_neg_pos by lra.
  replace (Rabs (-100)) with 100 by (rewrite Rabs_left; lra). lra.
Qed.

End CAGR.

(** ** The cost-of-capital estimate *)

Section WACC.

Import Js Lookup.

Lemma or_num_idem (v : option R) (d : R) :
  d <> 0 -> or_num (Some (or_num v d)) d = or_num v d.
Proof.
  intros Hd. unfold or_num. destruct v as [x |]; js_compare.
Qed.

Lemma clamp_max_min (x : R) :
  Math_max 0.5 (Math_min 2.5 x) = Spec.clamp x 0.5 2.5.
Proof. unfold Spec.clamp. js_minmax; js_compare. Qed.

(** The claim C9 as it is written fails at a beta of zero: a present,
    valid beta of 0 is replaced by 1 ([0 || 1]), so the estimate is 10
    and not [4.5 + 0.5 * 5.5 = 7.25]. *)
Lemma estimateWACC_zero_beta :
  estimateWACC (Some 0) = 10
  /\ Spec.waccEstimate (Some 0) = 7.25
  /\ estimateWACC (Some 0) <> Spec.waccEstimate (Some 0).
Proof.
  assert (H1 : estimateWACC (Some 0) = 10).
  { unfold estimateWACC, or_num. js_compare. js_minmax. }
  assert (H2 : Spec.waccEstimate (Some 0) = 7.25).
  { unfold Spec.waccEstimate, Spec.beta_or_default, Spec.clamp. js_compare. }
  repeat split; try assumption. rewrite H1, H2. lra.
Qed.

(** C9, amended.  For every beta the estimate is
    [4.5 + clamp(b, 0.5, 2.5) * 5.5] where [b] is beta, or 1 when beta is
    absent, invalid or zero; it lies in [[7.25, 18.25]]; and the
    derivation's [wacc] is that estimate of the provider's beta. *)
Theorem estimateWACC_clamped :
  forall beta : option R,
    estimateWACC beta = 4.5 + Spec.clamp (or_num beta 1) 0.5 2.5 * 5.5
    /\ 7.25 <= estimateWACC beta <= 18.25
    /\ (forall b : R,
           b <> 0 -> estimateWACC (Some b) = Spec.waccEstimate (Some b))
    /\ estimateWACC None = Spec.waccEstimate None
    /\ (forall income cashFlow summary,
           GrowthIndex.wacc (deriveMetrics income cashFlow summary)
           = estimateWACC (Lookup.beta summary)).
Proof.
  intros beta. repeat split.
  - unfold estimateWACC. now rewrite clamp_max_min.
  - unfold estimateWACC. js_minmax.
  - unfold estimateWACC. js_minmax.
  - intros b Hb. unfold estimateWACC, Spec.waccEstimate, Spec.beta_or_default.
    rewrite clamp_max_min. unfold or_num. js_compare.
  - unfold estimateWACC, Spec.waccEstimate, Spec.beta_or_default.
    rewrite clamp_max_min. unfold or_num, Spec.clamp. js_compare.
  - intros income cashFlow summary. unfold deriveMetrics. simpl.
    unfold estimateWACC. rewrite or_num_idem by lra. reflexivity.
Qed.

(** A beta of 3 is clamped to 2.5. *)
Lemma estimateWACC_clamped_witness :
  3 <> 0 /\ estimateWACC (Some 3) = Spec.waccEstimate (Some 3).
Proof.
  assert (H : 3 <> 0) by lra.
  split; [exact H |].
  exact (proj1 (proj2 (proj2 (estimateWACC_clamped None))) 3 H).
Defined.

End WACC.

(** ** The quality factor *)

Section Quality.

Import Js GrowthIndex.

Lemma calculateQualityFactor_formula (roic wacc : R) :
  (wacc <= 0 -> calculateQualityFactor roic wacc 0.7 1.0 = 1.0)
  /\ (0 < wacc ->
      calculateQualityFactor roic wacc 0.7 1.0
      = 0.7 + 0.3 * Rmin 1.0 (roic / wacc)).
Proof.
  split; intros H; unfold calculateQualityFactor, Math_min; js_compare.
Qed.

Lemma calculateQualityFactor_le_max (roic wacc : R) :
  calculateQualityFactor roic wacc 0.7 1.0 <= 1.0.
Proof.
  unfold calculateQualityFactor. js_compare. js_minmax.
Qed.

(** With a return that is not negative the factor is in range. *)
Lemma calculateQualityFactor_range (roic wacc : R) :
  0 <= roic -> 0.7 <= calculateQualityFactor roic wacc 0.7 1.0 <= 1.0.
Proof.
  intros Hr. split; [| apply calculateQualityFactor_le_max].
  unfold calculateQualityFactor. js_compare.
  assert (0 <= roic / wacc).
  { apply Rmult_le_pos; [lra |]. apply Rlt_le, Rinv_0_lt_compat. lra. }
  js_minmax.
Qed.

Lemma calculateQualityFactor_zero_roic :
  calculateQualityFactor 0 10 0.7 1.0 = 0.7.
Proof.
  unfold calculateQualityFactor. js_compare.
  replace (0 / 10) with 0 by lra. js_minmax.
Qed.

Lemma calculateQualityFactor_zero_wacc (r : R) :
  calculateQualityFactor r 0 0.7 1.0 = 1.0.
Proof. unfold calculateQualityFactor. js_compare. Qed.

(** C3.  The lower bound of the claim fails: the ratio [roic / wacc] is
    capped at 1 from above but not from below, so a negative return
    gives a factor under [minQf].  At [roic = -10], [wacc = 10] the
    factor is 0.4. *)
Theorem calculateQualityFactor_negative_roic :
  calculateQualityFactor (-10) 10 minQf_default maxQf_default = 0.4
  /\ calculateQualityFactor (-10) 10 minQf_default maxQf_default
     < minQf_default.
Proof.
  assert (H : calculateQualityFactor (-10) 10 minQf_default maxQf_default
              = 0.4).
  { unfold calculateQualityFactor, minQf_default, maxQf_default. js_compare.
    replace (-10 / 10) with (-1) by lra. js_minmax. }
  split; [exact H |]. rewrite H. unfold minQf_default. lra.
Qed.

(** A negative return on equity reaches the factor through the
    derivation: [roic] is the provider's figure times 100. *)
Lemma deriveMetrics_negative_roic income cashFlow summary :
  Lookup.returnOnEquity summary = Some (-0.1) ->
  roic (Lookup.deriveMetrics income cashFlow summary) = -10.
Proof.
  intros H. unfold Lookup.deriveMetrics. cbn [roic]. rewrite H.
  unfold or_num. js_compare.
Qed.

End Quality.

(** ** The interpretation bands *)

Section Interpretation.

Import Js GrowthIndex.

(** C7.  [interpretGrowthIndex] answers for every real number, and its
    label is the one of the five half-open bands, each closed at its
    lower bound; 40 is exceptional, 39.99 is strong and -1 is
    declining. *)
Theorem interpretGrowthIndex_bands :
  (forall gi : R, label (interpretGrowthIndex gi) = Spec.band gi)
  /\ (forall gi : R,
         let l := label (interpretGrowthIndex gi) in
         (40 <= gi /\ l = "Exceptional Growth"%string)
         \/ (25 <= gi < 40 /\ l = "Strong Growth"%string)
         \/ (15 <= gi < 25 /\ l = "Moderate Growth"%string)
         \/ (5 <= gi < 15 /\ l = "Low Growth"%string)
         \/ (gi < 5 /\ l = "Declining/Stagnant"%string))
  /\ label (interpretGrowthIndex 40) = "Exceptional Growth"%string
  /\ label (interpretGrowthIndex 39.99) = "Strong Growth"%string
  /\ label (interpretGrowthIndex (-1)) = "Declining/Stagnant"%string.
Proof.
  repeat split.
  - intros gi. unfold interpretGrowthIndex, Spec.band.
    js_compare; reflexivity.
  - intros gi l. subst l. unfold interpretGrowthIndex.
    destruct (Rle_dec 40 gi); [left | right];
      [js_compare; split; [lra | reflexivity] |].
    destruct (Rle_dec 25 gi); [left | right];
      [js_compare; split; [lra | reflexivity] |].
    destruct (Rle_dec 15 gi); [left | right];
      [js_compare; split; [lra | reflexivity] |].
    destruct (Rle_dec 5 gi); [left | right];
      js_compare; split; (lra || reflexivity).
  - unfold interpretGrowthIndex. js_compare; reflexivity.
  - unfold interpretGrowthIndex. js_compare; reflexivity.
  - unfold interpretGrowthIndex. js_compare; reflexivity.
Qed.

End Interpretation.

(** ** The consistency factor *)

Section Consistency.

Import Js GrowthIndex.

Lemma fold_left_Rplus (l : list R) (a : R) :
  fold_left Rplus l a = a + Spec.total l.
Proof.
  revert a. induction l as [| x l IH]; intros a; simpl.
  - lra.
  - rewrite IH. lra.
Qed.

Lemma sum_total (l : list R) : sum l = Spec.total l.
Proof. unfold sum. rewrite fold_left_Rplus. lra. Qed.

Lemma mean_spec (g : list R) : mean g = Spec.mean g.
Proof.
  unfold mean, Spec.mean. destruct g as [| x g]; simpl.
  - unfold Rdiv. lra.
  - now rewrite sum_total.
Qed.

Lemma stdev_spec (g : list R) :
  (2 <= List.length g)%nat -> stdev g = Spec.sampleStdev g.
Proof.
  intros Hn. unfold stdev, Spec.sampleStdev, Math_sqrt.
  destruct (Nat.ltb_spec (List.length g) 2) as [H | _]; [lia |].
  rewrite !sum_total. unfold Spec.mean.
  do 3 f_equal. apply map_ext. intros v. rewrite Math_pow_2. simpl. lra.
Qed.

Lemma stdev_nonneg (g : list R) : 0 <= stdev g.
Proof.
  unfold stdev, Math_sqrt. destruct (List.length g <? 2)%nat.
  - lra.
  - apply sqrt_pos.
Qed.

Lemma clamp_in_range (x lo hi : R) :
  lo <= hi -> lo <= Spec.clamp x lo hi <= hi.
Proof. intros H. unfold Spec.clamp. js_compare. Qed.

Lemma max_min_clamp (x lo hi : R) :
  lo <= hi -> Math_max lo (Math_min hi x) = Spec.clamp x lo hi.
Proof. intros H. unfold Spec.clamp. js_minmax; js_compare. Qed.

Lemma calculateConsistencyFactor_short (g : list R) (lo hi : R) :
  (List.length g < 2)%nat -> calculateConsistencyFactor g lo hi = hi.
Proof.
  intros H. unfold calculateConsistencyFactor.
  destruct (Nat.ltb_spec (List.length g) 2); [reflexivity | lia].
Qed.

Lemma calculateConsistencyFactor_declining (g : list R) (lo hi : R) :
  (2 <= List.length g)%nat -> Spec.mean g <= 0 ->
  calculateConsistencyFactor g lo hi = lo.
Proof.
  intros Hn Hm. unfold calculateConsistencyFactor.
  destruct (Nat.ltb_spec (List.length g) 2); [lia |].
  rewrite mean_spec. js_compare.
Qed.

Lemma calculateConsistencyFactor_growing (g : list R) (lo hi : R) :
  (2 <= List.length g)%nat -> 0 < Spec.mean g -> lo <= hi ->
  calculateConsistencyFactor g lo hi
  = Spec.clamp (1 - Spec.sampleStdev g / Spec.mean g) lo hi.
Proof.
  intros Hn Hm Hlh. unfold calculateConsistencyFactor.
  destruct (Nat.ltb_spec (List.length g) 2); [lia |].
  rewrite mean_spec, stdev_spec by assumption.
  destruct (leb_le (Spec.mean g) 0) as [H1 _].
  destruct (Spec.mean g <=? 0).
  - specialize (H1 eq_refl). lra.
  - now apply max_min_clamp.
Qed.

Lemma calculateConsistencyFactor_bounds (g : list R) (lo hi : R) :
  lo <= hi -> lo <= calculateConsistencyFactor g lo hi <= hi.
Proof.
  intros Hlh.
  destruct (Nat.lt_ge_cases (List.length g) 2) as [Hn | Hn].
  - rewrite calculateConsistencyFactor_short by assumption. lra.
  - destruct (Rle_lt_dec (Spec.mean g) 0) as [Hm | Hm].
    + rewrite calculateConsistencyFactor_declining by assumption. lra.
    + rewrite calculateConsistencyFactor_growing by assumption.
      now apply clamp_in_range.
Qed.

Lemma mean_steady : Spec.mean [10; 10; 10] = 10.
Proof. unfold Spec.mean. simpl. lra. Qed.

Lemma sampleStdev_steady : Spec.sampleStdev [10; 10; 10] = 0.
Proof.
  unfold Spec.sampleStdev. rewrite mean_steady. simpl.
  replace ((10 - 10) * ((10 - 10) * 1)) with 0 by lra.
  replace ((0 + (0 + (0 + 0))) / (1 + 1 + 1 - 1)) with 0 by lra.
  apply sqrt_0.
Qed.

Lemma mean_declining : Spec.mean [-5; -5; -5] = -5.
Proof. unfold Spec.mean. simpl. lra. Qed.

(** C6.  With the default bounds the consistency factor of any series is
    in [[0.5, 1.0]]: it is 1.0 for fewer than two rates, 0.5 when the
    mean is not positive, and otherwise [1 - s / mean] clamped to
    [[0.5, 1.0]], with [s] the sample standard deviation (divisor
    [n - 1]); three rates of 10 give 1.0 and three rates of -5 give
    0.5. *)
Theorem calculateConsistencyFactor_spec :
  (forall g : list R,
      let cf := calculateConsistencyFactor g minCf_default maxCf_default in
      0.5 <= cf <= 1.0
      /\ ((List.length g < 2)%nat -> cf = 1.0)
      /\ ((2 <= List.length g)%nat -> Spec.mean g <= 0 -> cf = 0.5)
      /\ ((2 <= List.length g)%nat -> 0 < Spec.mean g ->
          cf = Spec.clamp (1 - Spec.sampleStdev g / Spec.mean g) 0.5 1.0))
  /\ calculateConsistencyFactor [10; 10; 10] minCf_default maxCf_default
     = 1.0
  /\ calculateConsistencyFactor [-5; -5; -5] minCf_default maxCf_default
     = 0.5.
Proof.
  assert (Hb : minCf_default <= maxCf_default)
    by (unfold minCf_default, maxCf_default; lra).
  split; [| split].
  - intros g cf. subst cf.
    pose proof (calculateConsistencyFactor_bounds g _ _ Hb) as Hr.
    split; [| split; [| split]].
    + revert Hr. generalize (calculateConsistencyFactor g minCf_default
                                maxCf_default).
      unfold minCf_default, maxCf_default. intros; lra.
    + intros H. now rewrite calculateConsistencyFactor_short.
    + intros Hn Hm. now rewrite calculateConsistencyFactor_declining.
    + intros Hn Hm. now rewrite calculateConsistencyFactor_growing.
  - rewrite calculateConsistencyFactor_growing;
      [| simpl; lia | rewrite mean_steady; lra | exact Hb].
    rewrite sampleStdev_steady, mean_steady.
    unfold Spec.clamp, minCf_default, maxCf_default. js_compare.
  - rewrite calculateConsistencyFactor_declining;
      [reflexivity | simpl; lia | rewrite mean_declining; lra].
Qed.

(** The clamped branch at the steady series, through the theorem. *)
Lemma calculateConsistencyFactor_spec_witness :
  (2 <= List.length [10; 10; 10])%nat /\ 0 < Spec.mean [10; 10; 10]
  /\ calculateConsistencyFactor [10; 10; 10] minCf_default maxCf_default
     = Spec.clamp
         (1 - Spec.sampleStdev [10; 10; 10] / Spec.mean [10; 10; 10])
         0.5 1.0.
Proof.
  assert (Hn : (2 <= List.length [10; 10; 10])%nat) by (simpl; lia).
  assert (Hm : 0 < Spec.mean [10; 10; 10]) by (rewrite mean_steady; lra).
  repeat split; try assumption.
  exact (proj2 (proj2 (proj2
           (proj1 calculateConsistencyFactor_spec [10; 10; 10]))) Hn Hm).
Defined.

End Consistency.

(** ** The composite score on the example company *)

Section Composite.

Import Js GrowthIndex Sample.

Ltac eval_abs := unfold Rabs; destruct (Rcase_abs _); lra.

Lemma sqrt_between (a b v : R) :
  0 <= a -> 0 <= b -> a * a <= v <= b * b -> a <= sqrt v <= b.
Proof.
  intros Ha Hb [H1 H2]. split.
  - rewrite <- (sqrt_square a) by assumption. now apply sqrt_le_1_alt.
  - rewrite <- (sqrt_square b) by assumption. now apply sqrt_le_1_alt.
Qed.

Lemma META_mean : Spec.mean [15.7; 21.9; 21.3] = 58.9 / 3.
Proof. unfold Spec.mean. simpl. lra. Qed.

Lemma META_sampleStdev :
  3.4195 <= Spec.sampleStdev [15.7; 21.9; 21.3] <= 3.4196.
Proof.
  unfold Spec.sampleStdev. rewrite META_mean.
  apply sqrt_between; [lra | lra |]. simpl. lra.
Qed.

Lemma META_consistency :
  0.82582 <= calculateConsistencyFactor [15.7; 21.9; 21.3]
               minCf_default maxCf_default <= 0.82584.
Proof.
  rewrite calculateConsistencyFactor_growing;
    [| simpl; lia | rewrite META_mean; lra
     | unfold minCf_default, maxCf_default; lra ].
  rewrite META_mean. pose proof META_sampleStdev as H.
  unfold Spec.clamp, minCf_default, maxCf_default. js_compare.
Qed.

Lemma META_quality :
  calculateQualityFactor 34.0 12.7 minQf_default maxQf_default = 1.
Proof.
  unfold calculateQualityFactor, minQf_default, maxQf_default. js_compare.
  assert (1.0 <= 34.0 / 12.7) by lra. js_minmax.
Qed.

Lemma META_baseScore : baseScore META_result = 41.34.
Proof.
  unfold META_result, calculateGrowthIndex, META_metrics, DEFAULT_WEIGHTS.
  cbn [baseScore revenue eps fcf margin revenueCagr epsCagr fcfCagr
       marginDelta].
  rewrite (Math_round_int 4134); lra.
Qed.

Lemma META_consistencyFactor : consistencyFactor META_result = 0.826.
Proof.
  unfold META_result, calculateGrowthIndex, META_metrics.
  cbn [consistencyFactor annualRevenueGrowth].
  pose proof META_consistency as H.
  rewrite (Math_round_int 826); lra.
Qed.

Lemma META_qualityFactor : qualityFactor META_result = 1.
Proof.
  unfold META_result, calculateGrowthIndex, META_metrics.
  cbn [qualityFactor roic wacc]. rewrite META_quality.
  rewrite (Math_round_int 1000); lra.
Qed.

Lemma META_growthIndex : growthIndex META_result = 34.14.
Proof.
  unfold META_result, calculateGrowthIndex, META_metrics, DEFAULT_WEIGHTS.
  cbn [growthIndex revenue eps fcf margin revenueCagr epsCagr fcfCagr
       marginDelta annualRevenueGrowth roic wacc].
  rewrite META_quality. pose proof META_consistency as H.
  rewrite (Math_round_int 3414); lra.
Qed.

(** The claim C5 as it is written fails: the base score of the example
    is 41.34 and its growth index 34.14, each more than 0.1 away from
    the 38.62 and 32.56 of the claim. *)
Lemma META_not_within_tolerance :
  ~ Rabs (baseScore (calculateGrowthIndex META_metrics DEFAULT_WEIGHTS)
          - 38.62) <= 0.1
  /\ ~ Rabs (growthIndex (calculateGrowthIndex META_metrics DEFAULT_WEIGHTS)
             - 32.56) <= 0.1.
Proof.
  fold META_result. rewrite META_baseScore, META_growthIndex.
  split; eval_abs.
Qed.

(** C5, amended.  On the example metrics with the default weights the
    base score is 41.34, the consistency factor 0.843, the quality
    factor 1.0 and the growth index 34.14, each within 0.1. *)
Theorem META_within_tolerance :
  let r := calculateGrowthIndex META_metrics DEFAULT_WEIGHTS in
  Rabs (baseScore r - 41.34) <= 0.1
  /\ Rabs (consistencyFactor r - 0.843) <= 0.1
  /\ Rabs (qualityFactor r - 1.0) <= 0.1
  /\ Rabs (growthIndex r - 34.14) <= 0.1.
Proof.
  intros r. subst r. fold META_result.
  rewrite META_baseScore, META_consistencyFactor, META_qualityFactor,
    META_growthIndex.
  repeat split; eval_abs.
Qed.

End Composite.

(** ** Ranking: [Array.prototype.sort] and [compareCompanies] *)

Section Sorting.

Import Js.

Variable A : Type.
Variable key : A -> R.

(** The comparator [(a, b) => key(b) - key(a)] and the order it asks
    for. *)
Let descending (a b : A) : R := key b - key a.
Let before (a b : A) : Prop := key a >= key b.

Lemma sort_insert_perm (x : A) (l : list A) :
  Permutation (x :: l) (sort_insert descending x l).
Proof.
  induction l as [| y l IH]; simpl.
  - apply Permutation_refl.
  - destruct (descending x y <=? 0).
    + apply Permutation_refl.
    + eapply perm_trans; [apply perm_swap |]. now apply perm_skip.
Qed.

Lemma Array_sort_perm (l : list A) :
  Permutation l (Array_sort descending l).
Proof.
  induction l as [| x l IH]; simpl.
  - apply perm_nil.
  - eapply perm_trans; [| apply sort_insert_perm]. now apply perm_skip.
Qed.

Lemma sort_insert_sorted (x : A) (l : list A) :
  StronglySorted before l ->
  StronglySorted before (sort_insert descending x l).
Proof.
  induction 1 as [| y l Hs IH Hy]; simpl.
  - repeat constructor.
  - unfold leb. destruct (Rle_dec (descending x y) 0) as [Hle | Hgt].
    + constructor; [now constructor |].
      constructor; [unfold before, descending in *; lra |].
      eapply Forall_impl; [| exact Hy].
      intros z Hz. unfold before, descending in *. lra.
    + constructor; [exact IH |].
      eapply Permutation_Forall; [apply sort_insert_perm |].
      constructor; [unfold before, descending in *; lra | exact Hy].
Qed.

Lemma Array_sort_sorted (l : list A) :
  StronglySorted before (Array_sort descending l).
Proof.
  induction l as [| x l IH]; simpl.
  - constructor.
  - now apply sort_insert_sorted.
Qed.

End Sorting.

Section Ranking.

Import Js GrowthIndex.

(** C10.  [compareCompanies] returns one result per company: a
    permutation of the companies, each with its name, ticker and metrics
    unchanged and with [calculateGrowthIndex metrics weights] as its
    result, in descending order of growth index. *)
Theorem compareCompanies_ranked :
  forall (companies : list Company) (weights : Weights),
    let out := compareCompanies companies weights in
    Permutation (map (Spec.ranked weights) companies) out
    /\ List.length out = List.length companies
    /\ StronglySorted
         (fun a b => growthIndex (result a) >= growthIndex (result b)) out.
Proof.
  intros companies weights out. subst out. unfold compareCompanies.
  pose proof (Array_sort_perm CompanyResult
                (fun r => growthIndex (result r))
                (map (Spec.ranked weights) companies)) as Hp.
  split; [exact Hp | split].
  - rewrite <- (length_map (Spec.ranked weights) companies).
    symmetry. exact (Permutation_length Hp).
  - apply (Array_sort_sorted CompanyResult (fun r => growthIndex (result r))).
Qed.

End Ranking.

(** ** The pipeline of one ticker *)

Section Pipeline.

Import Js GrowthIndex Lookup.

Variable quoteSummary : string -> Js.result QuoteSummary.

(** What a successful [fetchCompanyData] read and returned. *)
Lemma fetchCompanyData_Ok (t : string) (data : CompanyData) :
  fetchCompanyData quoteSummary t = Ok data ->
  exists summary income cashFlow,
    quoteSummary t = Ok summary
    /\ incomeStatementHistory summary = Some income
    /\ cashflowStatements summary = Some cashFlow
    /\ (4 <= List.length income)%nat
    /\ (4 <= List.length cashFlow)%nat
    /\ let m := deriveMetrics income cashFlow summary in
       let gi := calculateGrowthIndex m DEFAULT_WEIGHTS in
       Lookup.growthIndex data = GrowthIndex.growthIndex gi
       /\ Lookup.baseScore data = GrowthIndex.baseScore gi
       /\ Lookup.consistencyFactor data = GrowthIndex.consistencyFactor gi
       /\ Lookup.qualityFactor data = GrowthIndex.qualityFactor gi
       /\ Lookup.metrics data
          = {| Lookup.revenueCagr :=
                 Math_round (GrowthIndex.revenueCagr m * 10) / 10;
               Lookup.epsCagr := Math_round (GrowthIndex.epsCagr m * 10) / 10;
               Lookup.fcfCagr := Math_round (GrowthIndex.fcfCagr m * 10) / 10;
               Lookup.marginDelta :=
                 Math_round (GrowthIndex.marginDelta m * 10) / 10;
               Lookup.roic := Math_round (GrowthIndex.roic m * 10) / 10;
               Lookup.wacc := Math_round (GrowthIndex.wacc m * 10) / 10 |}.
Proof.
  unfold fetchCompanyData, bind.
  destruct (quoteSummary t) as [summary | msg]; [| discriminate].
  destruct (incomeStatementHistory summary) as [[| y income] |] eqn:Hi;
    try discriminate.
  destruct (Nat.ltb_spec (List.length (y :: income)) 4) as [| Hli];
    [discriminate |].
  destruct (cashflowStatements summary) as [[| c cashFlow] |] eqn:Hc;
    try discriminate.
  destruct (Nat.ltb_spec (List.length (c :: cashFlow)) 4) as [| Hlc];
    [discriminate |].
  intros H. injection H as <-.
  exists summary, (y :: income), (c :: cashFlow).
  repeat split; assumption.
Qed.

(** The answer when the provider has four years of both statements. *)
Lemma fetchCompanyData_complete (t : string) (summary : QuoteSummary)
    (income : list IncomeStatement) (cashFlow : list CashflowStatement) :
  quoteSummary t = Ok summary ->
  incomeStatementHistory summary = Some income ->
  cashflowStatements summary = Some cashFlow ->
  (4 <= List.length income)%nat -> (4 <= List.length cashFlow)%nat ->
  exists data, fetchCompanyData quoteSummary t = Ok data.
Proof.
  intros Hq Hi Hc Hli Hlc. unfold fetchCompanyData, bind.
  rewrite Hq, Hi, Hc.
  destruct income as [| y income]; [simpl in Hli; lia |].
  destruct (Nat.ltb_spec (List.length (y :: income)) 4); [lia |].
  destruct cashFlow as [| c cashFlow]; [simpl in Hlc; lia |].
  destruct (Nat.ltb_spec (List.length (c :: cashFlow)) 4); [lia |].
  eexists. reflexivity.
Qed.


End Pipeline.

(** ** Where the metrics are rounded and what the score is computed from *)

Section Rounding.

Import Js GrowthIndex Lookup.

Lemma or_num_some (x d : R) : x <> 0 -> or_num (Some x) d = x.
Proof. intros H. unfold or_num. js_compare. Qed.







Lemma loss_pipeline :
  exists data, fetchCompanyData Sample.quoteSummary "LOSS" = Ok data.
Proof.
  apply (fetchCompanyData_complete Sample.quoteSummary "LOSS"
           Sample.loss_summary _ _ eq_refl eq_refl eq_refl);
    simpl; lia.
Qed.




End Rounding.

(** ** The batch handler *)

Section Strings.

Lemma append_nil_r (s : string) : (s ++ "")%string = s.
Proof. induction s as [| c s IH]; simpl; [reflexivity | now rewrite IH]. Qed.

Lemma append_assoc (s1 s2 s3 : string) :
  ((s1 ++ s2) ++ s3)%string = (s1 ++ s2 ++ s3)%string.
Proof.
  induction s1 as [| c s1 IH]; simpl; [reflexivity | now rewrite IH].
Qed.

(** A joined list of strings contains each of them. *)
Lemma concat_contains (sep : string) (l : list string) (m : string) :
  In m l -> Spec.contains (String.concat sep l) m.
Proof.
  induction l as [| x l IH]; intros Hin; [contradiction |].
  destruct Hin as [-> | Hin].
  - destruct l as [| y l]; simpl.
    + exists ""%string, ""%string. simpl. now rewrite append_nil_r.
    + exists ""%string, (sep ++ String.concat sep (y :: l))%string.
      reflexivity.
  - destruct (IH Hin) as (b & a & Heq).
    destruct l as [| y l]; [contradiction |].
    exists (x ++ sep ++ b)%string, a.
    change (String.concat sep (x :: y :: l))
      with (x ++ sep ++ String.concat sep (y :: l))%string.
    rewrite Heq. now rewrite !append_assoc.
Qed.

End Strings.

Section Batch.

Import Js GrowthIndex Lookup.

Variable quoteSummary : string -> Js.result QuoteSummary.

#[local] Abbreviation entry := (entry_of quoteSummary).

Lemma entry_of_Ok (t : string) (data : CompanyData) :
  Spec.pipeline quoteSummary t = Ok data -> entry t = Entry_data data.
Proof. unfold Spec.pipeline, entry_of. now intros ->. Qed.

Lemma entry_of_Throw (t m : string) :
  Spec.pipeline quoteSummary t = Throw m ->
  entry t = Entry_error (toUpperCase t) m.
Proof. unfold Spec.pipeline, entry_of. now intros ->. Qed.

(** The loop pushes one entry per ticker, in order. *)
Lemma loop_map (ts : list string) (acc : list BatchEntry) :
  fold_left (fun results t => results ++ [entry t]) ts acc
  = acc ++ map entry ts.
Proof.
  revert acc. induction ts as [| t ts IH]; intros acc; simpl.
  - now rewrite app_nil_r.
  - rewrite IH, <- app_assoc. reflexivity.
Qed.

(** The entries without an error are the successful results. *)
Lemma ok_successes (ts : list string) :
  filter (fun r => negb (has_error r)) (map entry ts)
  = map Entry_data (Spec.successes quoteSummary ts).
Proof.
  induction ts as [| t ts IH]; simpl; [reflexivity |].
  destruct (Spec.pipeline quoteSummary t) as [data | m] eqn:Hp.
  - rewrite (entry_of_Ok _ _ Hp). simpl. now rewrite IH.
  - rewrite (entry_of_Throw _ _ Hp). simpl. exact IH.
Qed.

(** When no pipeline succeeds, the errors of the entries are the failure
    reasons. *)
Lemma errors_reasons (ts : list string) :
  Spec.successes quoteSummary ts = [] ->
  join "; " (map entry_error (map entry ts))
  = String.concat "; " (Spec.reasons quoteSummary ts).
Proof.
  intros H. unfold join. f_equal.
  induction ts as [| t ts IH]; simpl; [reflexivity |].
  simpl in H.
  destruct (Spec.pipeline quoteSummary t) as [data | m] eqn:Hp;
    [discriminate |].
  rewrite (entry_of_Throw _ _ Hp). simpl. now rewrite IH.
Qed.

Lemma all_fail_no_success (ts : list string) :
  (forall t, In t ts -> exists m, Spec.pipeline quoteSummary t = Throw m) ->
  Spec.successes quoteSummary ts = [].
Proof.
  induction ts as [| t ts IH]; intros H; simpl; [reflexivity |].
  destruct (H t (or_introl eq_refl)) as [m ->]. simpl.
  apply IH. intros t' Ht'. apply H. now right.
Qed.

Lemma reason_listed (ts : list string) (t m : string) :
  In t ts -> Spec.pipeline quoteSummary t = Throw m ->
  In m (Spec.reasons quoteSummary ts).
Proof.
  intros Hin Hm. unfold Spec.reasons. apply in_flat_map.
  exists t. split; [exact Hin |]. rewrite Hm. now left.
Qed.

(** The answer to a batch of at least one ticker. *)
Lemma POST_cases (tickers : list string) :
  tickers <> [] ->
  let ts := Spec.processed tickers in
  POST quoteSummary (Some tickers)
  = match Spec.successes quoteSummary ts with
    | [] =>
        {| status := 400;
           body := Failure (join "; " (map entry_error (map entry ts))) |}
    | _ :: _ =>
        {| status := 200;
           body := Success (map Entry_data (Spec.successes quoteSummary ts)) |}
    end.
Proof.
  intros Hne ts. unfold POST.
  destruct tickers as [| t0 tickers]; [contradiction |].
  rewrite loop_map. cbn [app]. fold (Spec.processed (t0 :: tickers)).
  fold ts. rewrite ok_successes.
  destruct (Spec.successes quoteSummary ts); reflexivity.
Qed.

Lemma success_listed (ts : list string) (t : string) (data : CompanyData) :
  In t ts -> Spec.pipeline quoteSummary t = Ok data ->
  In data (Spec.successes quoteSummary ts).
Proof.
  intros Hin Hd. unfold Spec.successes. apply in_flat_map.
  exists t. split; [exact Hin |]. rewrite Hd. now left.
Qed.

Lemma processed_nonempty (tickers : list string) (t : string) :
  In t (Spec.processed tickers) -> tickers <> [].
Proof. intros Hin ->. exact Hin. Qed.

End Batch.

Section BatchClaims.

Import Js GrowthIndex Lookup.

Lemma sample_pipeline_NEW :
  Spec.pipeline Sample.quoteSummary "NEW"
  = Throw "Need 4yr data for NEW, got 2".
Proof. reflexivity. Qed.

Lemma sample_pipeline_XYZ :
  Spec.pipeline Sample.quoteSummary " xyz"
  = Throw "Quote not found for symbol: XYZ".
Proof. reflexivity. Qed.

Lemma sample_pipeline_LOSS :
  exists data, Spec.pipeline Sample.quoteSummary "LOSS" = Ok data.
Proof. exact loss_pipeline. Qed.

(** The claim C4 as it is written fails: of the two tickers of this
    batch the first succeeds and the second fails for lack of history,
    and the answer holds the first company's data and no entry with the
    second's failure reason. *)
Lemma POST_drops_failures :
  (exists data, Spec.pipeline Sample.quoteSummary "LOSS" = Ok data)
  /\ Spec.pipeline Sample.quoteSummary "NEW"
     = Throw "Need 4yr data for NEW, got 2"
  /\ exists entries,
       body (POST Sample.quoteSummary (Some ["LOSS"; "NEW"]%string))
       = Success entries
       /\ List.length entries = 1%nat
       /\ forall r, In r entries ->
                    entry_error r <> Some "Need 4yr data for NEW, got 2"%string.
Proof.
  split; [exact sample_pipeline_LOSS |].
  split; [exact sample_pipeline_NEW |].
  destruct sample_pipeline_LOSS as [data Hd].
  rewrite POST_cases by discriminate.
  cbn [Spec.processed firstn Spec.successes flat_map].
  rewrite Hd, sample_pipeline_NEW. cbn [app map body].
  exists [Entry_data data]. repeat split.
  intros r [<- | []]. discriminate.
Qed.

(** C4, amended.  When at least one processed ticker succeeds and at
    least one fails, the answer has status 200 and success flag true, and
    its data are the successful results in input order; the failed
    tickers have no entry in it. *)
Theorem POST_mixed_batch :
  forall (quoteSummary : string -> Js.result QuoteSummary)
         (tickers : list string) (t1 t2 : string) (data : CompanyData)
         (m : string),
    In t1 (Spec.processed tickers) ->
    Spec.pipeline quoteSummary t1 = Ok data ->
    In t2 (Spec.processed tickers) ->
    Spec.pipeline quoteSummary t2 = Throw m ->
    let answer := POST quoteSummary (Some tickers) in
    answer
    = {| status := 200;
         body :=
           Success
             (map Entry_data
                (Spec.successes quoteSummary (Spec.processed tickers))) |}
    /\ success (body answer) = true
    /\ forall entries, body answer = Success entries ->
         forall r, In r entries -> has_error r = false.
Proof.
  intros quoteSummary tickers t1 t2 data m H1 Hd H2 Hm answer.
  assert (Heq : answer
                = {| status := 200;
                     body :=
                       Success
                         (map Entry_data
                            (Spec.successes quoteSummary
                               (Spec.processed tickers))) |}).
  { subst answer. rewrite POST_cases by (eapply processed_nonempty; eauto).
    pose proof (success_listed quoteSummary _ _ _ H1 Hd) as Hin.
    destruct (Spec.successes quoteSummary (Spec.processed tickers));
      [contradiction | reflexivity]. }
  rewrite Heq. cbn [body success]. repeat split.
  intros entries He r Hr. injection He as <-.
  apply in_map_iff in Hr. destruct Hr as (d & <- & _). reflexivity.
Qed.

(** The sample batch, through the theorem. *)
Lemma POST_mixed_batch_witness :
  success (body (POST Sample.quoteSummary (Some ["LOSS"; "NEW"]%string)))
  = true.
Proof.
  destruct sample_pipeline_LOSS as [data Hd].
  exact (proj1 (proj2
           (POST_mixed_batch Sample.quoteSummary ["LOSS"; "NEW"]%string
              "LOSS" "NEW" data _
              (or_introl eq_refl) Hd
              (or_intror (or_introl eq_refl)) sample_pipeline_NEW))).
Defined.

(** C8.  When every processed ticker of a non-empty batch fails (the
    processed tickers are the first ten), the answer has status 400 and
    success flag false, and its one error message is the failure reasons
    of the processed tickers joined with ["; "] in input order, so the
    reason of each processed ticker occurs in it. *)
Theorem POST_all_failed :
  forall (quoteSummary : string -> Js.result QuoteSummary)
         (tickers : list string),
    tickers <> [] ->
    (forall t, In t (Spec.processed tickers) ->
               exists m, Spec.pipeline quoteSummary t = Throw m) ->
    let answer := POST quoteSummary (Some tickers) in
    let message :=
      String.concat "; " (Spec.reasons quoteSummary (Spec.processed tickers)) in
    answer = {| status := 400; body := Failure message |}
    /\ success (body answer) = false
    /\ forall t m, In t (Spec.processed tickers) ->
                   Spec.pipeline quoteSummary t = Throw m ->
                   Spec.contains message m.
Proof.
  intros quoteSummary tickers Hne Hall answer message.
  pose proof (all_fail_no_success quoteSummary _ Hall) as Hs.
  assert (Heq : answer = {| status := 400; body := Failure message |}).
  { subst answer message. rewrite POST_cases by assumption.
    rewrite Hs. now rewrite errors_reasons. }
  rewrite Heq. cbn [body success]. repeat split.
  intros t m Hin Hm. subst message. apply concat_contains.
  eapply reason_listed; eassumption.
Qed.

(** A batch of an unknown symbol and a company with two years of
    history, through the theorem. *)
Lemma POST_all_failed_witness :
  POST Sample.quoteSummary (Some [" xyz"; "NEW"]%string)
  = {| status := 400;
       body :=
         Failure
           "Quote not found for symbol: XYZ; Need 4yr data for NEW, got 2" |}.
Proof.
  assert (Hne : [" xyz"; "NEW"]%string <> []) by discriminate.
  assert (Hall : forall t, In t (Spec.processed [" xyz"; "NEW"]%string) ->
                   exists m, Spec.pipeline Sample.quoteSummary t = Throw m).
  { intros t [<- | [<- | []]]; eexists; reflexivity. }
  exact (proj1 (POST_all_failed Sample.quoteSummary _ Hne Hall)).
Defined.

(** Without tickers the answer is the fixed message. *)
Lemma POST_no_tickers (quoteSummary : string -> Js.result QuoteSummary) :
  POST quoteSummary None = {| status := 400; body := Failure "No tickers" |}
  /\ POST quoteSummary (Some [])
     = {| status := 400; body := Failure "No tickers" |}.
Proof. split; reflexivity. Qed.

End BatchClaims.

(** ** Claim C1: the piecewise rate and the years it is taken between *)

Section CAGRClaim.

Import Js Lookup.








End CAGRClaim.

(** ** Claim C8 as written: the cap of ten tickers *)

Section BatchCap.

Import Js Lookup.

Lemma prefix_append (s after : string) :
  String.prefix s (s ++ after) = true.
Proof.
  induction s as [| c s IH]; simpl.
  - now destruct after.
  - destruct (ascii_dec c c) as [_ | Hc]; [exact IH | contradiction].
Qed.

Lemma contains_occursb (t s : string) :
  Spec.contains t s -> Spec.occursb s t = true.
Proof.
  intros (before & after & ->).
  induction before as [| c before IH].
  - cbn [append].
    destruct (s ++ after)%string eqn:E; cbn [Spec.occursb];
      rewrite <- E, prefix_append; reflexivity.
  - cbn [append Spec.occursb]. rewrite IH. apply orb_true_r.
Qed.

Lemma unknown_symbol_fails (t : string) :
  In t Sample.eleven ->
  exists m, Spec.pipeline Sample.quoteSummary t = Throw m.
Proof.
  intros H. repeat (destruct H as [<- | H]; [eexists; reflexivity |]).
  contradiction.
Qed.

(** The claim C8 as it is written fails on a batch of eleven tickers
    that all fail: the answer has the success flag false, but its message
    joins the reasons of the first ten only, and the reason of the
    eleventh does not occur in it. *)
Lemma POST_eleven_failures :
  (forall t, In t Sample.eleven ->
             exists m, Spec.pipeline Sample.quoteSummary t = Throw m)
  /\ Spec.pipeline Sample.quoteSummary "KK"
     = Throw "Quote not found for symbol: KK"
  /\ exists message,
       POST Sample.quoteSummary (Some Sample.eleven)
       = {| status := 400; body := Failure message |}
       /\ ~ Spec.contains message "Quote not found for symbol: KK".
Proof.
  split; [exact unknown_symbol_fails |].
  split; [reflexivity |].
  eexists. split; [reflexivity |].
  intros H. apply contains_occursb in H. vm_compute in H. discriminate.
Qed.

End BatchCap.

(** * Further properties of the code *)

(** ** Growth rates: direction and the zero end *)

Section GrowthRates.

Import Js Lookup.

Lemma Rpower_gt_1 (x y : R) : 0 < y -> 1 < x -> 1 < Rpower x y.
Proof.
  intros Hy Hx. unfold Rpower. rewrite <- exp_0. apply exp_increasing.
  apply Rmult_lt_0_compat; [exact Hy |].
  rewrite <- ln_1. apply ln_increasing; lra.
Qed.

Lemma Rpower_lt_1 (x y : R) : 0 < y -> 0 < x < 1 -> Rpower x y < 1.
Proof.
  intros Hy Hx. unfold Rpower. rewrite <- exp_0. apply exp_increasing.
  assert (ln x < 0) by (rewrite <- ln_1; apply ln_increasing; lra).
  nra.
Qed.

Lemma sign_scaled (d a b : R) :
  0 < a -> 0 < b ->
  (0 < d * a * 100 * b <-> 0 < d)
  /\ (d * a * 100 * b < 0 <-> d < 0)
  /\ (d * a * 100 * b = 0 <-> d = 0).
Proof.
  intros Ha Hb.
  assert (Hc : 0 < a * 100 * b)
    by (apply Rmult_lt_0_compat; [apply Rmult_lt_0_compat |]; lra).
  replace (d * a * 100 * b) with (d * (a * 100 * b)) by ring.
  generalize dependent (a * 100 * b). intros c Hc.
  repeat split; intros H; nra.
Qed.

(** X1.  [calcYoY] is 0 on a zero base, and otherwise its sign is the
    direction of the change, also from a negative base: positive exactly
    when the value rose, zero exactly when it stayed, negative exactly
    when it fell. *)
Theorem calcYoY_direction :
  (forall curr : R, calcYoY 0 curr = 0)
  /\ (forall prev curr : R,
         prev <> 0 ->
         (0 < calcYoY prev curr <-> prev < curr)
         /\ (calcYoY prev curr = 0 <-> curr = prev)
         /\ (calcYoY prev curr < 0 <-> curr < prev)).
Proof.
  split.
  - intros curr. unfold calcYoY. js_compare.
  - intros prev curr Hp.
    assert (Ha : 0 < / Rabs prev)
      by (apply Rinv_0_lt_compat, Rabs_pos_lt; exact Hp).
    assert (Heq : calcYoY prev curr = (curr - prev) * / Rabs prev * 100).
    { unfold calcYoY, Math_abs. js_compare. }
    rewrite Heq. repeat split; intros H; nra.
Qed.

Lemma calcYoY_direction_witness :
  -50 <> 0 /\ (0 < calcYoY (-50) (-20) <-> -50 < -20).
Proof.
  assert (H : -50 <> 0) by lra.
  split; [exact H |].
  exact (proj1 (proj2 calcYoY_direction (-50) (-20) H)).
Defined.

(** X3.  When the end value is 0 and the start is not, the rate is -100
    for any positive number of years, whatever the sign of the start: a
    loss that shrinks to exactly zero is reported like a total loss. *)
Theorem calcCAGR_zero_end :
  forall start years : R,
    0 < years -> start <> 0 -> calcCAGR start 0 years = -100.
Proof.
  intros start years Hy Hs.
  assert (He : 0 / start = 0) by (unfold Rdiv; lra).
  assert (Hx : 0 < 1 / years) by (apply Rdiv_lt_0_compat; lra).
  rewrite calcCAGR_otherwise by lra.
  rewrite He, (Math_pow_zero_base _ Hx). lra.
Qed.

Lemma calcCAGR_zero_end_witness : calcCAGR (-250) 0 3 = -100.
Proof. apply calcCAGR_zero_end; lra. Defined.

(** X4.  For a positive number of years and non-zero start and end, the
    sign of [calcCAGR] is the direction of the change in every branch:
    positive exactly when the value rose, negative exactly when it fell,
    zero exactly when it stayed. *)
Theorem calcCAGR_direction :
  forall start end_ years : R,
    0 < years -> start <> 0 -> end_ <> 0 ->
    (0 < calcCAGR start end_ years <-> start < end_)
    /\ (calcCAGR start end_ years < 0 <-> end_ < start)
    /\ (calcCAGR start end_ years = 0 <-> start = end_).
Proof.
  intros start end_ years Hy Hs He.
  assert (Hiy : 0 < / years) by (now apply Rinv_0_lt_compat).
  destruct (Rlt_dec start 0) as [Hsn | Hsp];
    destruct (Rlt_dec end_ 0) as [Hen | Hep].
  - rewrite calcCAGR_neg_neg by assumption.
    rewrite !Rabs_left by assumption.
    assert (Ha : 0 < / - start) by (apply Rinv_0_lt_compat; lra).
    unfold Rdiv.
    destruct (sign_scaled (- start - - end_) _ _ Ha Hiy) as (H1 & H2 & H3).
    rewrite H1, H2, H3. repeat split; intros; lra.
  - rewrite calcCAGR_neg_pos by lra.
    rewrite Rabs_left by assumption.
    assert (Ha : 0 < / - start) by (apply Rinv_0_lt_compat; lra).
    unfold Rdiv.
    destruct (sign_scaled (end_ - start) _ _ Ha Hiy) as (H1 & H2 & H3).
    rewrite H1, H2, H3. repeat split; intros; lra.
  - rewrite calcCAGR_pos_neg by lra.
    assert (Ha : 0 < / start) by (apply Rinv_0_lt_compat; lra).
    unfold Rdiv.
    destruct (sign_scaled (end_ - start) _ _ Ha Hiy) as (H1 & H2 & H3).
    rewrite H1, H2, H3. repeat split; intros; lra.
  - assert (Hs' : 0 < start) by lra. assert (He' : 0 < end_) by lra.
    rewrite calcCAGR_compound by assumption.
    assert (Hx : 0 < end_ / start) by (now apply Rdiv_lt_0_compat).
    assert (Hyy : 0 < 1 / years) by (unfold Rdiv; lra).
    assert (Hr : end_ / start * start = end_) by (field; lra).
    destruct (Rtotal_order (end_ / start) 1) as [Hlt | [Heq | Hgt]].
    + pose proof (Rpower_lt_1 _ _ Hyy (conj Hx Hlt)).
      repeat split; intros; nra.
    + rewrite Heq. unfold Rpower. rewrite ln_1, Rmult_0_r, exp_0.
      repeat split; intros; nra.
    + pose proof (Rpower_gt_1 _ _ Hyy Hgt).
      repeat split; intros; nra.
Qed.

Lemma calcCAGR_direction_witness :
  0 < calcCAGR (-100) (-40) 3 <-> -100 < -40.
Proof.
  apply (calcCAGR_direction (-100) (-40) 3); lra.
Defined.

End GrowthRates.


(** ** The two factors on whole families of inputs *)

Section Factors.

Import Js GrowthIndex.

(** X8.  For any bounds with [minCf <= maxCf] the consistency factor of
    any series is within the bounds. *)
Theorem calculateConsistencyFactor_within_bounds :
  forall (g : list R) (minCf maxCf : R),
    minCf <= maxCf ->
    minCf <= calculateConsistencyFactor g minCf maxCf <= maxCf.
Proof.
  intros g lo hi H. now apply calculateConsistencyFactor_bounds.
Qed.

Lemma calculateConsistencyFactor_within_bounds_witness :
  0.6 <= calculateConsistencyFactor [30; -10; 50] 0.6 0.9 <= 0.9.
Proof.
  apply calculateConsistencyFactor_within_bounds. lra.
Defined.

Lemma total_nonpositive (g : list R) :
  Forall (fun x => x <= 0) g -> Spec.total g <= 0.
Proof.
  induction 1 as [| x g Hx _ IH]; simpl; lra.
Qed.

(** X10.  A series of at least two rates none of which is positive gets
    the floor [minCf], whatever the bounds: flat growth of 0 is
    penalised like a decline. *)
Theorem calculateConsistencyFactor_no_growth :
  forall (g : list R) (minCf maxCf : R),
    (2 <= List.length g)%nat ->
    Forall (fun x => x <= 0) g ->
    calculateConsistencyFactor g minCf maxCf = minCf.
Proof.
  intros g lo hi Hn Hg.
  apply calculateConsistencyFactor_declining; [exact Hn |].
  unfold Spec.mean.
  assert (Hpos : 0 < / INR (List.length g))
    by (apply Rinv_0_lt_compat, lt_0_INR; lia).
  pose proof (total_nonpositive g Hg). unfold Rdiv. nra.
Qed.

Lemma calculateConsistencyFactor_no_growth_witness :
  calculateConsistencyFactor [-2.8; 0; -1.5] 0.5 1.0 = 0.5.
Proof.
  apply calculateConsistencyFactor_no_growth; [simpl; lia |].
  repeat constructor; lra.
Defined.

(** X11.  With a positive cost of capital and [minQf <= maxQf] the
    quality factor never decreases when the return grows, and it is
    [maxQf] for every return at or above the cost of capital. *)
Theorem calculateQualityFactor_saturates :
  forall wacc minQf maxQf : R,
    0 < wacc -> minQf <= maxQf ->
    (forall roic : R,
        wacc <= roic -> calculateQualityFactor roic wacc minQf maxQf = maxQf)
    /\ (forall r1 r2 : R,
           r1 <= r2 ->
           calculateQualityFactor r1 wacc minQf maxQf
           <= calculateQualityFactor r2 wacc minQf maxQf).
Proof.
  intros wacc lo hi Hw Hb.
  assert (Hiw : 0 < / wacc) by (now apply Rinv_0_lt_compat).
  split.
  - intros roic Hr. unfold calculateQualityFactor. js_compare.
    assert (1.0 <= roic / wacc).
    { assert (H1 : wacc * / wacc = 1) by (apply Rinv_r; lra).
      unfold Rdiv. nra. }
    js_minmax.
  - intros r1 r2 Hr. unfold calculateQualityFactor. js_compare.
    assert (r1 / wacc <= r2 / wacc) by (unfold Rdiv; nra).
    js_minmax; nra.
Qed.

Lemma calculateQualityFactor_saturates_witness :
  calculateQualityFactor 48 10.1 0.7 1.0 = 1.0.
Proof.
  assert (Hw : 0 < 10.1) by lra.
  assert (Hb : 0.7 <= 1.0) by lra.
  assert (Hr : 10.1 <= 48) by lra.
  exact (proj1 (calculateQualityFactor_saturates 10.1 0.7 1.0 Hw Hb) 48 Hr).
Defined.

End Factors.

(** ** The composite score: what its rounding and its factors do *)

Section Score.

Import Js GrowthIndex.

Lemma Math_round_le (x y : R) : x <= y -> Math_round x <= Math_round y.
Proof.
  intros H. unfold Math_round. apply IZR_le, Zfloor_le. lra.
Qed.

Lemma Math_round_zero : Math_round 0 = 0.
Proof. apply (Math_round_int 0); lra. Qed.

(** The fields of the result in terms of the unrounded score. *)
Lemma calculateGrowthIndex_fields (m : GrowthMetrics) (w : Weights) :
  growthIndex (calculateGrowthIndex m w)
  = Math_round (Spec.rawGrowthIndex m w * 100) / 100
  /\ baseScore (calculateGrowthIndex m w)
     = Math_round (Spec.rawBaseScore m w * 100) / 100.
Proof. split; reflexivity. Qed.

(** X12.  When the return on capital is not negative, the two factors
    only shrink the score and never change its sign: the reported growth
    index lies between 0 and the reported base score. *)
Theorem growthIndex_between_zero_and_baseScore :
  forall (m : GrowthMetrics) (w : Weights),
    0 <= roic m ->
    let r := calculateGrowthIndex m w in
    (0 <= Spec.rawBaseScore m w -> 0 <= growthIndex r <= baseScore r)
    /\ (Spec.rawBaseScore m w <= 0 -> baseScore r <= growthIndex r <= 0).
Proof.
  intros m w Hr r. subst r.
  destruct (calculateGrowthIndex_fields m w) as [-> ->].
  unfold Spec.rawGrowthIndex.
  assert (Hb : minCf_default <= maxCf_default)
    by (unfold minCf_default, maxCf_default; lra).
  pose proof (calculateConsistencyFactor_bounds (annualRevenueGrowth m)
                _ _ Hb) as Hcf.
  pose proof (calculateQualityFactor_range (roic m) (wacc m) Hr) as Hqf.
  change (0.7 <= calculateQualityFactor (roic m) (wacc m) minQf_default
                   maxQf_default <= 1.0) in Hqf.
  revert Hcf Hqf.
  generalize (calculateConsistencyFactor (annualRevenueGrowth m)
                minCf_default maxCf_default).
  generalize (calculateQualityFactor (roic m) (wacc m) minQf_default
                maxQf_default).
  unfold minCf_default, maxCf_default.
  generalize (Spec.rawBaseScore m w).
  intros b q c Hc Hq. split; intros Hs.
  - assert (Hbc : 0 <= b * c <= b) by (split; nra).
    assert (H1 : 0 <= b * c * q * 100) by nra.
    assert (H2 : b * c * q * 100 <= b * 100) by nra.
    pose proof (Math_round_le _ _ H1) as Hlo.
    pose proof (Math_round_le _ _ H2) as Hhi.
    rewrite Math_round_zero in Hlo. lra.
  - assert (Hbc : b <= b * c <= 0) by (split; nra).
    assert (H1 : b * 100 <= b * c * q * 100) by nra.
    assert (H2 : b * c * q * 100 <= 0) by nra.
    pose proof (Math_round_le _ _ H1) as Hlo.
    pose proof (Math_round_le _ _ H2) as Hhi.
    rewrite Math_round_zero in Hhi. lra.
Qed.

Lemma growthIndex_between_zero_and_baseScore_witness :
  0 <= growthIndex (calculateGrowthIndex META_metrics DEFAULT_WEIGHTS)
    <= baseScore (calculateGrowthIndex META_metrics DEFAULT_WEIGHTS).
Proof.
  assert (Hr : 0 <= roic META_metrics) by (simpl; lra).
  assert (Hs : 0 <= Spec.rawBaseScore META_metrics DEFAULT_WEIGHTS)
    by (unfold Spec.rawBaseScore; simpl; lra).
  exact (proj1 (growthIndex_between_zero_and_baseScore META_metrics
                  DEFAULT_WEIGHTS Hr) Hs).
Defined.



End Score.

(** ** Ranking: the leader and ties *)

Section Stable.

Import Js.

Variable A : Type.
Variable key : A -> R.

Lemma sort_insert_keeps_ties (k : R) (x : A) (l : list A) :
  filter (fun a => key a =? k)
    (sort_insert (fun a b => key b - key a) x l)
  = filter (fun a => key a =? k) (x :: l).
Proof.
  induction l as [| y l IH]; [reflexivity |].
  cbn [sort_insert]. unfold leb at 1.
  destruct (Rle_dec (key y - key x) 0) as [Hle | Hgt]; [reflexivity |].
  cbn [filter] in *. rewrite IH.
  unfold eqb. destruct (Req_dec_T (key x) k) as [Hx | Hx];
    destruct (Req_dec_T (key y) k) as [Hy | Hy]; try reflexivity.
  exfalso. lra.
Qed.

Lemma Array_sort_keeps_ties (k : R) (l : list A) :
  filter (fun a => key a =? k) (Array_sort (fun a b => key b - key a) l)
  = filter (fun a => key a =? k) l.
Proof.
  induction l as [| x l IH]; [reflexivity |].
  cbn [Array_sort]. rewrite sort_insert_keeps_ties.
  cbn [filter]. now rewrite IH.
Qed.

Lemma sorted_head_max (l : list A) (x : A) (rest : list A) :
  StronglySorted (fun a b => key a >= key b) l ->
  l = x :: rest -> forall a, In a l -> key a <= key x.
Proof.
  intros Hs -> a [<- | Hin]; [lra |].
  apply StronglySorted_inv in Hs. destruct Hs as [_ Hall].
  rewrite Forall_forall in Hall. specialize (Hall a Hin). lra.
Qed.

End Stable.

Section Leader.

Import Js GrowthIndex.

(** X15.  When there is at least one company, the first result of
    [compareCompanies] is a leader: no company of the input has a
    greater growth index. *)
Theorem compareCompanies_leader :
  forall (companies : list Company) (weights : Weights) (c : Company),
    In c companies ->
    exists first rest,
      compareCompanies companies weights = first :: rest
      /\ growthIndex (calculateGrowthIndex (company_metrics c) weights)
         <= growthIndex (result first).
Proof.
  intros companies weights c Hc.
  pose proof (Array_sort_perm CompanyResult
                (fun r => growthIndex (result r))
                (map (Spec.ranked weights) companies)) as Hp.
  pose proof (Array_sort_sorted CompanyResult
                (fun r => growthIndex (result r))
                (map (Spec.ranked weights) companies)) as Hs.
  cbv beta in Hp, Hs.
  change (Array_sort
            (fun a b => growthIndex (result b) - growthIndex (result a))
            (map (Spec.ranked weights) companies))
    with (compareCompanies companies weights) in Hp, Hs.
  assert (Hin : In (Spec.ranked weights c) (compareCompanies companies weights)).
  { eapply Permutation_in; [exact Hp |]. now apply in_map. }
  destruct (compareCompanies companies weights) as [| first rest] eqn:Heq;
    [contradiction |].
  exists first, rest. split; [reflexivity |].
  exact (sorted_head_max CompanyResult (fun r => growthIndex (result r))
           _ _ _ Hs eq_refl _ Hin).
Qed.

Lemma APPLE_consistency :
  calculateConsistencyFactor [-2.8; 2.0; 6.4] minCf_default maxCf_default
  = 0.5.
Proof.
  assert (Hm : Spec.mean [-2.8; 2.0; 6.4] = 5.6 / 3)
    by (unfold Spec.mean; simpl; lra).
  rewrite calculateConsistencyFactor_growing;
    [| simpl; lia | rewrite Hm; lra
     | unfold minCf_default, maxCf_default; lra ].
  assert (Hs : 1 <= Spec.sampleStdev [-2.8; 2.0; 6.4] <= 5).
  { unfold Spec.sampleStdev. rewrite Hm.
    apply sqrt_between; [lra | lra |]. simpl. lra. }
  rewrite Hm. unfold Spec.clamp, minCf_default. js_compare.
Qed.

Lemma APPLE_growthIndex :
  growthIndex
    (calculateGrowthIndex (company_metrics Sample.APPLE_company)
       DEFAULT_WEIGHTS) = -0.14.
Proof.
  unfold calculateGrowthIndex, Sample.APPLE_company, DEFAULT_WEIGHTS.
  cbn [growthIndex company_metrics revenue eps fcf margin revenueCagr
       epsCagr fcfCagr marginDelta annualRevenueGrowth roic wacc].
  rewrite APPLE_consistency.
  assert (Hq : calculateQualityFactor 48.0 10.1 minQf_default maxQf_default
               = 1).
  { unfold calculateQualityFactor, minQf_default, maxQf_default. js_compare.
    assert (1.0 <= 48.0 / 10.1) by lra. js_minmax. }
  rewrite Hq. rewrite (Math_round_int (-14)); lra.
Qed.

(** Ranking the two example companies puts the second one first. *)
Lemma compareCompanies_examples :
  compareCompanies [Sample.APPLE_company; Sample.META_company]
    DEFAULT_WEIGHTS
  = [Spec.ranked DEFAULT_WEIGHTS Sample.META_company;
     Spec.ranked DEFAULT_WEIGHTS Sample.APPLE_company].
Proof.
  unfold compareCompanies.
  change (map _ [Sample.APPLE_company; Sample.META_company])
    with [Spec.ranked DEFAULT_WEIGHTS Sample.APPLE_company;
          Spec.ranked DEFAULT_WEIGHTS Sample.META_company].
  cbn [Array_sort sort_insert].
  change (growthIndex (result (Spec.ranked DEFAULT_WEIGHTS
                                 Sample.META_company)))
    with (growthIndex Sample.META_result).
  change (growthIndex (result (Spec.ranked DEFAULT_WEIGHTS
                                 Sample.APPLE_company)))
    with (growthIndex
            (calculateGrowthIndex (company_metrics Sample.APPLE_company)
               DEFAULT_WEIGHTS)).
  rewrite META_growthIndex, APPLE_growthIndex. js_compare; reflexivity.
Qed.

(** On the two example companies, with the lower one given first. *)
Lemma compareCompanies_leader_witness :
  exists first rest,
    compareCompanies [Sample.APPLE_company; Sample.META_company]
      DEFAULT_WEIGHTS = first :: rest
    /\ growthIndex
         (calculateGrowthIndex (company_metrics Sample.APPLE_company)
            DEFAULT_WEIGHTS)
       <= growthIndex (result first).
Proof.
  exact (compareCompanies_leader
           [Sample.APPLE_company; Sample.META_company] DEFAULT_WEIGHTS
           Sample.APPLE_company (or_introl eq_refl)).
Defined.

(** X16.  The ranking is stable: the companies that share a growth
    index keep, among themselves, the order they had in the input. *)
Theorem compareCompanies_keeps_ties :
  forall (companies : list Company) (weights : Weights) (k : R),
    filter (fun r => growthIndex (result r) =? k)
      (compareCompanies companies weights)
    = filter (fun r => growthIndex (result r) =? k)
        (map (Spec.ranked weights) companies).
Proof.
  intros companies weights k.
  exact (Array_sort_keeps_ties CompanyResult
           (fun r => growthIndex (result r)) k
           (map (Spec.ranked weights) companies)).
Qed.

End Leader.

(** ** The pipeline of one ticker: failures, history, ranges *)

Section PipelineEdges.

Import Js GrowthIndex Lookup.

Variable quoteSummary : string -> Js.result QuoteSummary.

Lemma fetchCompanyData_provider_error (t m : string) :
  quoteSummary t = Throw m -> fetchCompanyData quoteSummary t = Throw m.
Proof. intros H. unfold fetchCompanyData, bind. now rewrite H. Qed.

Lemma fetchCompanyData_no_income (t : string) (summary : QuoteSummary) :
  quoteSummary t = Ok summary ->
  incomeStatementHistory summary = None
  \/ incomeStatementHistory summary = Some [] ->
  fetchCompanyData quoteSummary t = Throw ("No income data for " ++ t)%string.
Proof.
  intros Hq [Hi | Hi]; unfold fetchCompanyData, bind; now rewrite Hq, Hi.
Qed.

Lemma fetchCompanyData_short_income (t : string) (summary : QuoteSummary)
    (income : list IncomeStatement) :
  quoteSummary t = Ok summary ->
  incomeStatementHistory summary = Some income ->
  (0 < List.length income < 4)%nat ->
  fetchCompanyData quoteSummary t
  = Throw ("Need 4yr data for " ++ t ++ ", got "
           ++ nat_to_string (List.length income))%string.
Proof.
  intros Hq Hi Hl. unfold fetchCompanyData, bind. rewrite Hq, Hi.
  destruct income as [| y income]; [simpl in Hl; lia |].
  destruct (Nat.ltb_spec (List.length (y :: income)) 4); [reflexivity | lia].
Qed.

Lemma fetchCompanyData_short_cashFlow (t : string) (summary : QuoteSummary)
    (income : list IncomeStatement) :
  quoteSummary t = Ok summary ->
  incomeStatementHistory summary = Some income ->
  (4 <= List.length income)%nat ->
  cashflowStatements summary = None
  \/ (exists cashFlow, cashflowStatements summary = Some cashFlow
                       /\ (List.length cashFlow < 4)%nat) ->
  fetchCompanyData quoteSummary t
  = Throw ("Need 4yr cash flow for " ++ t)%string.
Proof.
  intros Hq Hi Hl Hc. unfold fetchCompanyData, bind. rewrite Hq, Hi.
  destruct income as [| y income]; [simpl in Hl; lia |].
  destruct (Nat.ltb_spec (List.length (y :: income)) 4); [lia |].
  destruct Hc as [-> | (cashFlow & -> & Hlc)]; [reflexivity |].
  destruct cashFlow as [| c cashFlow]; [reflexivity |].
  destruct (Nat.ltb_spec (List.length (c :: cashFlow)) 4); [reflexivity | lia].
Qed.

End PipelineEdges.

Section PipelineClaims.

Import Js GrowthIndex Lookup.

(** X17.  [fetchCompanyData] fails in exactly these ways, in this order:
    an error of the provider passes through with its message; missing
    or empty income history is "No income data for T"; one to three
    income statements is "Need 4yr data for T, got n"; and, with four
    income statements, missing or fewer than four cash-flow statements
    is "Need 4yr cash flow for T". *)
Theorem fetchCompanyData_failures :
  forall (quoteSummary : string -> Js.result QuoteSummary) (t : string),
    (forall m, quoteSummary t = Throw m ->
               fetchCompanyData quoteSummary t = Throw m)
    /\ (forall summary,
           quoteSummary t = Ok summary ->
           incomeStatementHistory summary = None
           \/ incomeStatementHistory summary = Some [] ->
           fetchCompanyData quoteSummary t
           = Throw ("No income data for " ++ t)%string)
    /\ (forall summary income,
           quoteSummary t = Ok summary ->
           incomeStatementHistory summary = Some income ->
           (0 < List.length income < 4)%nat ->
           fetchCompanyData quoteSummary t
           = Throw ("Need 4yr data for " ++ t ++ ", got "
                    ++ nat_to_string (List.length income))%string)
    /\ (forall summary income,
           quoteSummary t = Ok summary ->
           incomeStatementHistory summary = Some income ->
           (4 <= List.length income)%nat ->
           cashflowStatements summary = None
           \/ (exists cashFlow,
                  cashflowStatements summary = Some cashFlow
                  /\ (List.length cashFlow < 4)%nat) ->
           fetchCompanyData quoteSummary t
           = Throw ("Need 4yr cash flow for " ++ t)%string).
Proof.
  intros quoteSummary t. repeat split.
  - apply fetchCompanyData_provider_error.
  - apply fetchCompanyData_no_income.
  - apply fetchCompanyData_short_income.
  - apply fetchCompanyData_short_cashFlow.
Qed.

Lemma fetchCompanyData_failures_witness :
  fetchCompanyData Sample.quoteSummary "NEW"
  = Throw "Need 4yr data for NEW, got 2".
Proof.
  assert (Hl : (0 < 2 < 4)%nat) by lia.
  exact (proj1 (proj2 (proj2 (fetchCompanyData_failures Sample.quoteSummary
                                "NEW")))
           Sample.new_summary _ eq_refl eq_refl Hl).
Defined.

(** X18.  [fetchCompanyData] succeeds exactly when the provider answers
    with at least four income statements and at least four cash-flow
    statements; nothing else in the answer (missing amounts, beta,
    return on equity, names) makes it fail. *)
Theorem fetchCompanyData_succeeds_iff :
  forall (quoteSummary : string -> Js.result QuoteSummary) (t : string),
    (exists data, fetchCompanyData quoteSummary t = Ok data)
    <-> (exists summary income cashFlow,
            quoteSummary t = Ok summary
            /\ incomeStatementHistory summary = Some income
            /\ cashflowStatements summary = Some cashFlow
            /\ (4 <= List.length income)%nat
            /\ (4 <= List.length cashFlow)%nat).
Proof.
  intros quoteSummary t. split.
  - intros [data H].
    destruct (fetchCompanyData_Ok _ _ _ H)
      as (summary & income & cashFlow & Hq & Hi & Hc & Hli & Hlc & _).
    exists summary, income, cashFlow. repeat split; assumption.
  - intros (summary & income & cashFlow & Hq & Hi & Hc & Hli & Hlc).
    eapply fetchCompanyData_complete; eassumption.
Qed.

(** X19.  Only the four most recent statements count: the metrics
    derived from any history are those derived from its first four
    income statements and first four cash-flow statements. *)
Theorem deriveMetrics_first_four :
  forall (income : list IncomeStatement) (cashFlow : list CashflowStatement)
         (summary : QuoteSummary),
    deriveMetrics income cashFlow summary
    = deriveMetrics (firstn 4 income) (firstn 4 cashFlow) summary.
Proof.
  intros income cashFlow summary. unfold deriveMetrics.
  rewrite !nth_firstn. reflexivity.
Qed.

Lemma estimateWACC_range (beta : option R) :
  7.25 <= estimateWACC beta <= 18.25.
Proof. unfold estimateWACC. split; js_minmax. Qed.

(** X20.  In every successful answer the reported consistency factor is
    within [[0.5, 1]], the reported quality factor is at most 1, and the
    reported cost of capital is within [[7.3, 18.3]]. *)
Theorem fetchCompanyData_reported_ranges :
  forall (quoteSummary : string -> Js.result QuoteSummary) (t : string)
         (data : CompanyData),
    fetchCompanyData quoteSummary t = Ok data ->
    0.5 <= Lookup.consistencyFactor data <= 1
    /\ Lookup.qualityFactor data <= 1
    /\ 7.3 <= Lookup.wacc (Lookup.metrics data) <= 18.3.
Proof.
  intros quoteSummary t data H.
  destruct (fetchCompanyData_Ok _ _ _ H)
    as (summary & income & cashFlow & _ & _ & _ & _ & _ & Hd).
  cbv zeta in Hd. destruct Hd as (_ & _ & Hcf & Hqf & Hm).
  rewrite Hcf, Hqf, Hm. cbn [Lookup.wacc].
  set (m := deriveMetrics income cashFlow summary).
  unfold calculateGrowthIndex.
  cbn [GrowthIndex.consistencyFactor GrowthIndex.qualityFactor].
  assert (Hb : minCf_default <= maxCf_default)
    by (unfold minCf_default, maxCf_default; lra).
  pose proof (calculateConsistencyFactor_bounds (annualRevenueGrowth m)
                _ _ Hb) as Hc.
  pose proof (calculateQualityFactor_le_max (GrowthIndex.roic m)
                (GrowthIndex.wacc m)) as Hq.
  change (calculateQualityFactor (GrowthIndex.roic m) (GrowthIndex.wacc m)
            minQf_default maxQf_default <= 1.0) in Hq.
  assert (Hw : 7.25 <= GrowthIndex.wacc m <= 18.25)
    by (apply estimateWACC_range).
  revert Hc Hq Hw.
  generalize (calculateConsistencyFactor (annualRevenueGrowth m)
                minCf_default maxCf_default).
  generalize (calculateQualityFactor (GrowthIndex.roic m)
                (GrowthIndex.wacc m) minQf_default maxQf_default).
  generalize (GrowthIndex.wacc m).
  unfold minCf_default, maxCf_default. intros w q c Hc Hq Hw.
  assert (H500 : Math_round 500 = 500) by (apply (Math_round_int 500); lra).
  assert (H1000 : Math_round 1000 = 1000)
    by (apply (Math_round_int 1000); lra).
  assert (H73 : Math_round 72.5 = 73) by (apply (Math_round_int 73); lra).
  assert (H183 : Math_round 182.5 = 183)
    by (apply (Math_round_int 183); lra).
  assert (H1 : Math_round 500 <= Math_round (c * 1000))
    by (apply Math_round_le; lra).
  assert (H2 : Math_round (c * 1000) <= Math_round 1000)
    by (apply Math_round_le; lra).
  assert (H3 : Math_round (q * 1000) <= Math_round 1000)
    by (apply Math_round_le; lra).
  assert (H4 : Math_round 72.5 <= Math_round (w * 10))
    by (apply Math_round_le; lra).
  assert (H5 : Math_round (w * 10) <= Math_round 182.5)
    by (apply Math_round_le; lra).
  lra.
Qed.

Lemma fetchCompanyData_reported_ranges_witness :
  exists data,
    fetchCompanyData Sample.quoteSummary "LOSS" = Ok data
    /\ 0.5 <= Lookup.consistencyFactor data <= 1.
Proof.
  destruct loss_pipeline as [data H]. exists data. split; [exact H |].
  exact (proj1 (fetchCompanyData_reported_ranges Sample.quoteSummary "LOSS"
                  data H)).
Defined.

End PipelineClaims.

(** ** The batch handler: the cap, the status, the tickers *)

Section BatchEdges.

Import Js GrowthIndex Lookup.

Lemma upper_idempotent (c : ascii) : upper (upper c) = upper c.
Proof.
  destruct c as [[] [] [] [] [] [] [] []]; reflexivity.
Qed.

Lemma toUpperCase_idempotent (s : string) :
  toUpperCase (toUpperCase s) = toUpperCase s.
Proof.
  induction s as [| c s IH]; simpl; [reflexivity |].
  now rewrite upper_idempotent, IH.
Qed.

Lemma fetchCompanyData_ticker
    (quoteSummary : string -> Js.result QuoteSummary) (t : string)
    (data : CompanyData) :
  fetchCompanyData quoteSummary t = Ok data ->
  Lookup.ticker data = toUpperCase t.
Proof.
  unfold fetchCompanyData, bind.
  destruct (quoteSummary t) as [summary | msg]; [| discriminate].
  destruct (incomeStatementHistory summary) as [[| y income] |];
    try discriminate.
  destruct (List.length (y :: income) <? 4)%nat; [discriminate |].
  destruct (cashflowStatements summary) as [[| c cashFlow] |];
    try discriminate.
  destruct (List.length (c :: cashFlow) <? 4)%nat; [discriminate |].
  intros H. injection H as <-. reflexivity.
Qed.


Lemma successes_origin
    (quoteSummary : string -> Js.result QuoteSummary) (ts : list string)
    (data : CompanyData) :
  In data (Spec.successes quoteSummary ts) <->
  exists t, In t ts /\ Spec.pipeline quoteSummary t = Ok data.
Proof.
  unfold Spec.successes. rewrite in_flat_map. split.
  - intros (t & Hin & Hd). exists t. split; [exact Hin |].
    destruct (Spec.pipeline quoteSummary t) as [d | m]; [| contradiction].
    destruct Hd as [-> | []]. reflexivity.
  - intros (t & Hin & Hd). exists t. split; [exact Hin |].
    rewrite Hd. now left.
Qed.

Lemma processed_processed (tickers : list string) :
  Spec.processed (Spec.processed tickers) = Spec.processed tickers.
Proof. unfold Spec.processed. now rewrite firstn_firstn. Qed.


(** The answer to any request body, by what the processed tickers do. *)
Lemma POST_answer (quoteSummary : string -> Js.result QuoteSummary)
    (tk : option (list string)) :
  (POST quoteSummary tk = {| status := 400; body := Failure "No tickers" |}
   /\ (tk = None \/ tk = Some []))
  \/ (exists tickers,
         tk = Some tickers /\ tickers <> []
         /\ Spec.successes quoteSummary (Spec.processed tickers) = []
         /\ exists message,
             POST quoteSummary tk
             = {| status := 400; body := Failure message |})
  \/ (exists tickers,
         tk = Some tickers /\ tickers <> []
         /\ Spec.successes quoteSummary (Spec.processed tickers) <> []
         /\ POST quoteSummary tk
            = {| status := 200;
                 body :=
                   Success
                     (map Entry_data
                        (Spec.successes quoteSummary
                           (Spec.processed tickers))) |}).
Proof.
  destruct tk as [[| t0 tickers] |].
  - left. split; [reflexivity | now right].
  - right. pose proof (POST_cases quoteSummary (t0 :: tickers)) as H.
    assert (Hne : t0 :: tickers <> []) by discriminate.
    specialize (H Hne). cbv zeta in H.
    destruct (Spec.successes quoteSummary (Spec.processed (t0 :: tickers)))
      as [| d ds] eqn:Hs.
    + left. exists (t0 :: tickers). repeat split; try assumption.
      eexists. exact H.
    + right. exists (t0 :: tickers). rewrite Hs.
      repeat split; try assumption. discriminate.
  - left. split; [reflexivity | now left].
Qed.

Lemma POST_first_ten_eq (quoteSummary : string -> Js.result QuoteSummary)
    (tickers : list string) :
  POST quoteSummary (Some tickers)
  = POST quoteSummary (Some (firstn 10 tickers)).
Proof.
  destruct tickers as [| t0 tickers]; [reflexivity |].
  rewrite (POST_cases quoteSummary (t0 :: tickers)) by discriminate.
  rewrite (POST_cases quoteSummary (firstn 10 (t0 :: tickers)))
    by discriminate.
  fold (Spec.processed (t0 :: tickers)).
  now rewrite processed_processed.
Qed.


(** On a request whose tickers are texts: the status follows the
    success flag, which is true exactly when the pipeline of at least
    one processed ticker succeeds. *)
Lemma POST_flag :
  forall (quoteSummary : string -> Js.result QuoteSummary)
         (tk : option (list string)),
    status (POST quoteSummary tk)
    = (if success (body (POST quoteSummary tk)) then 200 else 400)%nat
    /\ (success (body (POST quoteSummary tk)) = true
        <-> exists tickers t data,
              tk = Some tickers /\ In t (Spec.processed tickers)
              /\ Spec.pipeline quoteSummary t = Ok data).
Proof.
  intros quoteSummary tk.
  destruct (POST_answer quoteSummary tk)
    as [[H Htk] | [(ts & Hts & _ & Hs & m & H) | (ts & Hts & _ & Hs & H)]];
    rewrite H; cbn [status body success]; (split; [reflexivity |]).
  - split; [discriminate |].
    intros (tickers & t & data & -> & Hin & _).
    destruct Htk as [Htk | Htk]; [discriminate |].
    injection Htk as ->. contradiction.
  - split; [discriminate |].
    intros (tickers & t & data & Heq & Hin & Hd). exfalso.
    rewrite Heq in Hts. injection Hts as <-.
    pose proof (proj2 (successes_origin quoteSummary _ data)
                  (ex_intro _ t (conj Hin Hd))) as Hin'.
    rewrite Hs in Hin'. contradiction.
  - split; [| reflexivity]. intros _.
    destruct (Spec.successes quoteSummary (Spec.processed ts))
      as [| d ds] eqn:Hd; [contradiction |].
    assert (Hin : In d (Spec.successes quoteSummary (Spec.processed ts)))
      by (rewrite Hd; now left).
    apply successes_origin in Hin. destruct Hin as (t & Hin & Hp).
    exists ts, t, d. repeat split; assumption.
Qed.


Lemma loop_outcome (quoteSummary : string -> Js.result QuoteSummary)
    (tickers : list Ticker) (results : list BatchEntry) :
  (exists texts,
      tickers = map Text texts
      /\ loop quoteSummary tickers results
         = Ok (fold_left
                 (fun results t => results ++ [entry_of quoteSummary t])
                 texts results))
  \/ (exists message,
         In (NotText message) tickers
         /\ loop quoteSummary tickers results = Throw message).
Proof.
  revert results.
  induction tickers as [| [t | message] tickers IH]; intros results.
  - left. exists []. split; reflexivity.
  - destruct (IH (results ++ [entry_of quoteSummary t]))
      as [(texts & -> & H) | (message & Hin & H)].
    + left. exists (t :: texts). split; [reflexivity | exact H].
    + right. exists message. split; [now right | exact H].
  - right. exists message. split; [now left | reflexivity].
Qed.

Lemma not_text_in_texts (message : string) (texts : list string) :
  ~ In (NotText message) (map Text texts).
Proof.
  intros H. apply in_map_iff in H. destruct H as (t & H & _). discriminate.
Qed.

Lemma texts_length (tickers : list Ticker) (texts : list string) :
  firstn 10 tickers = map Text texts -> firstn 10 texts = texts.
Proof.
  intros H. apply firstn_all2.
  rewrite <- (length_map Text texts), <- H. apply firstn_le_length.
Qed.

(** The answers of the handler: through the outer [catch], or those of
    [POST] on the processed texts. *)
Lemma handler_answer (quoteSummary : string -> Js.result QuoteSummary)
    (request : RequestBody) :
  (exists message,
      handler quoteSummary request
      = {| status := 500; body := Failure message |}
      /\ (request = Unreadable message
          \/ exists tickers,
               request = Tickers (Some tickers)
               /\ In (NotText message) (firstn 10 tickers)))
  \/ (exists tk,
         handler quoteSummary request = POST quoteSummary tk
         /\ ((request = Tickers None /\ tk = None)
             \/ exists tickers texts,
                  request = Tickers (Some tickers) /\ tk = Some texts
                  /\ firstn 10 tickers = map Text texts)).
Proof.
  destruct request as [message | [[| t0 tickers] |]].
  - left. exists message. split; [reflexivity | now left].
  - right. exists (Some []). split; [reflexivity |]. right.
    exists [], []. repeat split.
  - destruct (loop_outcome quoteSummary (firstn 10 (t0 :: tickers)) [])
      as [(l & Hl & Hloop) | (message & Hin & Hloop)].
    + right. exists (Some l). split.
      * pose proof (texts_length _ _ Hl) as Hlen.
        destruct l as [| l0 l]; [discriminate |].
        unfold handler, POST. rewrite Hloop, Hlen. reflexivity.
      * right. exists (t0 :: tickers), l. repeat split. exact Hl.
    + left. exists message. split.
      * unfold handler. now rewrite Hloop.
      * right. exists (t0 :: tickers). split; [reflexivity | exact Hin].
  - right. exists None. split; [reflexivity |]. left. split; reflexivity.
Qed.

(** The handler on texts is [POST]. *)
Lemma handler_texts (quoteSummary : string -> Js.result QuoteSummary)
    (tk : option (list string)) :
  handler quoteSummary (Tickers (option_map (map Text) tk))
  = POST quoteSummary tk.
Proof.
  destruct (handler_answer quoteSummary
              (Tickers (option_map (map Text) tk)))
    as [(message & _ & [Hr | (tickers & Hr & Hin)])
       | (tk' & -> & [[Hr ->] | (tickers & texts & Hr & -> & Hts)])].
  - discriminate.
  - exfalso. destruct tk as [l |]; [| discriminate].
    injection Hr as <-. rewrite firstn_map in Hin.
    now apply not_text_in_texts in Hin.
  - destruct tk; [discriminate | reflexivity].
  - destruct tk as [l |]; [| discriminate].
    injection Hr as <-. rewrite firstn_map in Hts.
    assert (Hinj : forall a b : list string,
               map Text a = map Text b -> a = b).
    { induction a as [| x a IH]; intros [| y b] H; try discriminate;
        [reflexivity |].
      injection H as -> H. f_equal. now apply IH. }
    apply Hinj in Hts. subst texts. symmetry. apply POST_first_ten_eq.
Qed.

(** X22.  The status of the handler's answer is 200 exactly when its
    success flag is true, and 400 or 500 otherwise.  It is 500, from
    the outer [catch], exactly when the request cannot be read or one of
    its first ten tickers is not a text.  On a request whose tickers are
    texts the answer is that of [POST], whose flag is true exactly when
    the pipeline of at least one processed ticker succeeds. *)
Theorem POST_status :
  forall (quoteSummary : string -> Js.result QuoteSummary)
         (request : RequestBody),
    let answer := handler quoteSummary request in
    (status answer
     = if success (body answer) then 200%nat
       else if (status answer =? 500)%nat then 500%nat else 400%nat)
    /\ (status answer = 500%nat
        <-> (exists message, request = Unreadable message)
            \/ (exists tickers message,
                   request = Tickers (Some tickers)
                   /\ In (NotText message) (firstn 10 tickers)))
    /\ (forall tk : option (list string),
           request = Tickers (option_map (map Text) tk) ->
           answer = POST quoteSummary tk
           /\ status answer
              = (if success (body answer) then 200 else 400)%nat
           /\ (success (body answer) = true
               <-> exists tickers t data,
                     tk = Some tickers /\ In t (Spec.processed tickers)
                     /\ Spec.pipeline quoteSummary t = Ok data)).
Proof.
  intros quoteSummary request answer. subst answer.
  split; [| split].
  - destruct (handler_answer quoteSummary request)
      as [(message & -> & _) | (tk & -> & _)]; [reflexivity |].
    rewrite (proj1 (POST_flag quoteSummary tk)).
    now destruct (success (body (POST quoteSummary tk))).
  - destruct (handler_answer quoteSummary request)
      as [(message & -> & Hr) | (tk & -> & Hr)].
    + split; [intros _ | reflexivity].
      destruct Hr as [-> | (tickers & -> & Hin)].
      * left. now exists message.
      * right. now exists tickers, message.
    + rewrite (proj1 (POST_flag quoteSummary tk)). split.
      * destruct (success (body (POST quoteSummary tk))); discriminate.
      * intros [(message & ->) | (tickers & message & -> & Hin)]; exfalso.
        -- destruct Hr as [[Hr _] | (ts & l & Hr & _)]; discriminate.
        -- destruct Hr as [[Hr _] | (ts & l & Hr & _ & Hts)];
             [discriminate |].
           injection Hr as <-. rewrite Hts in Hin.
           now apply not_text_in_texts in Hin.
  - intros tk ->. rewrite handler_texts.
    split; [reflexivity |]. apply POST_flag.
Qed.

(** A body that is not JSON, and a number among the tickers. *)
Lemma handler_examples :
  handler Sample.quoteSummary (Unreadable "Unexpected end of JSON input")
  = {| status := 500; body := Failure "Unexpected end of JSON input" |}
  /\ handler Sample.quoteSummary
       (Tickers (Some [Text "NEW"; NotText "t.toUpperCase is not a function";
                       Text "LOSS"]))
     = {| status := 500;
          body := Failure "t.toUpperCase is not a function" |}
  /\ handler Sample.quoteSummary (Tickers (Some [Text "NEW"]))
     = {| status := 400; body := Failure "Need 4yr data for NEW, got 2" |}.
Proof. repeat split. Qed.

(** X23.  Every entry of a successful answer is the data of a processed
    ticker whose pipeline succeeded, and its [ticker] field is that
    ticker trimmed and in upper case. *)
Theorem POST_entries_are_normalised :
  forall (quoteSummary : string -> Js.result QuoteSummary)
         (tickers : list string) (entries : list BatchEntry),
    body (POST quoteSummary (Some tickers)) = Success entries ->
    forall r, In r entries ->
      exists t data,
        In t (Spec.processed tickers)
        /\ Spec.pipeline quoteSummary t = Ok data
        /\ r = Entry_data data
        /\ Lookup.ticker data = toUpperCase (trim t).
Proof.
  intros quoteSummary tickers entries He r Hr.
  destruct (POST_answer quoteSummary (Some tickers))
    as [[H _] | [(ts & _ & _ & _ & m & H) | (ts & Hts & _ & Hs & H)]];
    rewrite H in He; try discriminate.
  injection Hts as <-. injection He as <-.
  apply in_map_iff in Hr. destruct Hr as (data & <- & Hin).
  apply successes_origin in Hin. destruct Hin as (t & Hin & Hp).
  exists t, data. repeat split; try assumption.
  unfold Spec.pipeline in Hp.
  rewrite (fetchCompanyData_ticker _ _ _ Hp).
  apply toUpperCase_idempotent.
Qed.

Lemma POST_entries_are_normalised_witness :
  exists entries,
    body (POST Sample.quoteSummary (Some [" loss "; "NEW"]%string))
    = Success entries
    /\ forall r, In r entries ->
         exists t data,
           In t (Spec.processed [" loss "; "NEW"]%string)
           /\ Spec.pipeline Sample.quoteSummary t = Ok data
           /\ r = Entry_data data
           /\ Lookup.ticker data = toUpperCase (trim t).
Proof.
  destruct loss_pipeline as [data Hd].
  assert (He : body (POST Sample.quoteSummary
                       (Some [" loss "; "NEW"]%string))
               = Success [Entry_data data]).
  { rewrite POST_cases by discriminate.
    cbn [Spec.processed firstn Spec.successes flat_map].
    change (Spec.pipeline Sample.quoteSummary " loss ")
      with (fetchCompanyData Sample.quoteSummary "LOSS").
    rewrite Hd, sample_pipeline_NEW. reflexivity. }
  exists [Entry_data data]. split; [exact He |].
  exact (POST_entries_are_normalised Sample.quoteSummary _ _ He).
Defined.

End BatchEdges.


(** ** The price figures of the answer *)

Section Market.

Import Js Lookup.

Lemma currentPrice_value (price : option Price) (p : R) :
  optional price regularMarketPrice = Some p -> p <> 0 ->
  currentPrice price = p.
Proof.
  intros H Hp. unfold currentPrice. rewrite H. now apply or_num_some.
Qed.

(** X24.  When the provider gives no previous close, or a previous close
    of 0, the current price stands in for it: the price change and the
    percentage change are both 0, whatever the price. *)
Theorem priceChange_without_previous_close :
  forall price : option Price,
    optional price regularMarketPreviousClose = None
    \/ optional price regularMarketPreviousClose = Some 0 ->
    previousClose price = currentPrice price
    /\ priceChange price = 0
    /\ priceChangePercent price = 0.
Proof.
  intros price H.
  assert (Hp : previousClose price = currentPrice price).
  { unfold previousClose. destruct H as [-> | ->]; unfold or_num.
    - reflexivity.
    - js_compare. }
  assert (Hc : priceChange price = 0) by (unfold priceChange; rewrite Hp; lra).
  repeat split; try assumption.
  unfold priceChangePercent. rewrite Hc.
  destruct (previousClose price >? 0); [unfold Rdiv |]; lra.
Qed.

Lemma priceChange_without_previous_close_witness :
  priceChange
    (Some {| regularMarketPrice := Some 187.5;
             regularMarketPreviousClose := None |}) = 0.
Proof.
  exact (proj1 (proj2 (priceChange_without_previous_close
                         (Some {| regularMarketPrice := Some 187.5;
                                  regularMarketPreviousClose := None |})
                         (or_introl eq_refl)))).
Defined.

(** X25.  With a positive previous close the percentage change has the
    sign of the price change, and it is above -100 unless the price is
    missing or 0, in which case it is exactly -100. *)
Theorem priceChangePercent_sign :
  forall (price : option Price) (c : R),
    optional price regularMarketPreviousClose = Some c -> 0 < c ->
    (0 < priceChangePercent price <-> c < currentPrice price)
    /\ (priceChangePercent price < 0 <-> currentPrice price < c)
    /\ (currentPrice price = 0 -> priceChangePercent price = -100).
Proof.
  intros price c Hc Hpos.
  assert (Hp : previousClose price = c).
  { unfold previousClose. rewrite Hc. apply or_num_some. lra. }
  unfold priceChangePercent, priceChange. rewrite Hp.
  assert (Hi : 0 < / c) by (now apply Rinv_0_lt_compat).
  assert (Hlt : (c >? 0) = true) by (now apply ltb_lt).
  rewrite Hlt. unfold Rdiv.
  generalize (currentPrice price). intros p.
  assert (Hone : c * / c = 1) by (apply Rinv_r; lra).
  repeat split; intros; nra.
Qed.

Lemma priceChangePercent_sign_witness :
  0 < priceChangePercent
        (Some {| regularMarketPrice := Some 110;
                 regularMarketPreviousClose := Some 100 |})
  <-> 100 < currentPrice
              (Some {| regularMarketPrice := Some 110;
                       regularMarketPreviousClose := Some 100 |}).
Proof.
  assert (Hpos : 0 < 100) by lra.
  exact (proj1 (priceChangePercent_sign
                  (Some {| regularMarketPrice := Some 110;
                           regularMarketPreviousClose := Some 100 |})
                  100 eq_refl Hpos)).
Defined.

Lemma Math_round_minus_1000 : Math_round (-1000) = -1000.
Proof. apply (Math_round_int (-1000)); lra. Qed.

(** X26.  For a price inside its 52-week range, with a positive low, the
    distance [fromHigh] is in [[-100, 0]] and [fromLow] is at least 0,
    and so are the distances the answer reports, which are these rounded
    to one decimal (a price far below the high is reported as exactly
    -100).  Without a high or a low the distance and the reported
    distance are 0. *)
Theorem fiftyTwoWeek_distances :
  forall (price : option Price) (detail : option SummaryDetail),
    (forall lo hi : R,
        optional detail fiftyTwoWeekLow = Some lo ->
        optional detail fiftyTwoWeekHigh = Some hi ->
        0 < lo -> lo <= currentPrice price <= hi ->
        -100 <= fromHigh price detail <= 0
        /\ 0 <= fromLow price detail
        /\ -100 <= market_fromHigh price detail <= 0
        /\ 0 <= market_fromLow price detail)
    /\ (optional detail fiftyTwoWeekHigh = None ->
        fromHigh price detail = 0 /\ market_fromHigh price detail = 0)
    /\ (optional detail fiftyTwoWeekLow = None ->
        fromLow price detail = 0 /\ market_fromLow price detail = 0).
Proof.
  intros price detail. split; [| split].
  - intros lo hi Hlo Hhi Hpos Hin.
    assert (Hraw : -100 <= fromHigh price detail <= 0
                   /\ 0 <= fromLow price detail).
    { unfold fromHigh, fromLow. rewrite Hlo, Hhi.
      rewrite !or_num_some by lra.
      assert (Hh : (hi >? 0) = true) by (apply ltb_lt; lra).
      assert (Hl : (lo >? 0) = true) by (apply ltb_lt; lra).
      rewrite Hh, Hl.
      assert (Hih : 0 < / hi) by (apply Rinv_0_lt_compat; lra).
      assert (Hil : 0 < / lo) by (apply Rinv_0_lt_compat; lra).
      assert (Hone : hi * / hi = 1) by (apply Rinv_r; lra).
      unfold Rdiv. revert Hin. generalize (currentPrice price).
      intros p Hin. repeat split; nra. }
    destruct Hraw as [[Hh1 Hh2] Hl].
    unfold market_fromHigh, market_fromLow.
    assert (H1 : Math_round (-1000) <= Math_round (fromHigh price detail * 10))
      by (apply Math_round_le; lra).
    assert (H2 : Math_round (fromHigh price detail * 10) <= Math_round 0)
      by (apply Math_round_le; lra).
    assert (H3 : Math_round 0 <= Math_round (fromLow price detail * 10))
      by (apply Math_round_le; lra).
    rewrite Math_round_minus_1000 in H1. rewrite Math_round_zero in H2, H3.
    repeat split; lra.
  - intros H. unfold market_fromHigh.
    assert (H0 : fromHigh price detail = 0)
      by (unfold fromHigh; rewrite H; unfold or_num; js_compare).
    rewrite H0. split; [reflexivity |].
    rewrite Rmult_0_l, Math_round_zero. lra.
  - intros H. unfold market_fromLow.
    assert (H0 : fromLow price detail = 0)
      by (unfold fromLow; rewrite H; unfold or_num; js_compare).
    rewrite H0. split; [reflexivity |].
    rewrite Rmult_0_l, Math_round_zero. lra.
Qed.

Lemma fiftyTwoWeek_distances_witness :
  -100 <= market_fromHigh Sample.quote Sample.range <= 0
  /\ 0 <= market_fromLow Sample.quote Sample.range.
Proof.
  assert (Hpos : 0 < 60) by lra.
  assert (Hin : 60 <= currentPrice Sample.quote <= 120).
  { rewrite (currentPrice_value _ 90) by (reflexivity || lra). lra. }
  exact (proj2 (proj2 (proj1 (fiftyTwoWeek_distances Sample.quote
                                Sample.range)
                         60 120 eq_refl eq_refl Hpos Hin))).
Defined.

End Market.

(** ** The Alpha Vantage route *)

Section AlphaVantageFacts.

Import Js GrowthIndex.

Variable parseFloat : string -> option R.
Variable fetch : string -> Js.result AlphaVantage.HttpResponse.

#[local] Abbreviation fetchAV := (AlphaVantage.fetchAV fetch).

Lemma fetchAV_no_key (fn t : string) :
  fetchAV "" fn t = Throw "Alpha Vantage API key not provided".
Proof. reflexivity. Qed.

Lemma fetchAV_with_key (key fn t : string) :
  key <> ""%string ->
  fetchAV key fn t
  = (res <- fetch (AlphaVantage.BASE ++ "?function=" ++ fn ++ "&symbol="
                   ++ t ++ "&apikey=" ++ key)%string ;;
     if negb (AlphaVantage.ok res) then
       Throw ("Alpha Vantage "
              ++ nat_to_string (AlphaVantage.status res))%string
     else
       data <- AlphaVantage.json res ;;
       match AlphaVantage.Error_Message data with
       | Some (String c m) => Throw (String c m)
       | _ =>
           if AlphaVantage.truthy (AlphaVantage.Note data)
              || AlphaVantage.truthy (AlphaVantage.Information data)
           then Throw "Rate limit - wait 60s"
           else Ok data
       end).
Proof.
  intros Hk. unfold AlphaVantage.fetchAV.
  destruct (String.eqb_spec key ""); [contradiction | reflexivity].
Qed.

Lemma rev_asIncome (y : AlphaVantage.Report) :
  Lookup.rev (AlphaVantage.asIncome parseFloat y)
  = AlphaVantage.rev parseFloat y.
Proof. reflexivity. Qed.

Lemma opInc_asIncome (y : AlphaVantage.Report) :
  Lookup.opInc (AlphaVantage.asIncome parseFloat y)
  = AlphaVantage.opInc parseFloat y.
Proof. reflexivity. Qed.

Lemma eps_asIncome (y : AlphaVantage.Report) :
  Lookup.eps (AlphaVantage.asIncome parseFloat y)
  = AlphaVantage.eps parseFloat y.
Proof.
  unfold Lookup.eps, AlphaVantage.eps, AlphaVantage.asIncome, or_num.
  cbn [Lookup.netIncome].
  destruct (AlphaVantage.parse parseFloat (AlphaVantage.reportedEPS y));
    [| reflexivity].
  js_compare.
Qed.

Lemma fcf_asCashflow (c : AlphaVantage.Report) :
  Lookup.fcf (AlphaVantage.asCashflow parseFloat c)
  = AlphaVantage.fcf parseFloat c.
Proof. reflexivity. Qed.

Lemma roic_agrees (v : option R) :
  or_num (option_map (fun x => x * 100) v) 15 = or_num v 0.15 * 100.
Proof.
  destruct v as [x |]; simpl; unfold or_num; [| lra].
  js_compare.
Qed.

End AlphaVantageFacts.

Section AlphaVantageClaims.

Import Js GrowthIndex.

(** X27.  [fetchAV] refuses to run without an API key; with one, it
    fails on an HTTP status that is not ok with "Alpha Vantage" and the
    status, then on the body's "Error Message" with that message, then
    on a "Note" or "Information" with "Rate limit - wait 60s", and
    returns the body otherwise. *)
Theorem fetchAV_outcomes :
  forall (fetch : string -> Js.result AlphaVantage.HttpResponse)
         (key fn t : string),
    let url :=
      (AlphaVantage.BASE ++ "?function=" ++ fn ++ "&symbol=" ++ t
       ++ "&apikey=" ++ key)%string in
    AlphaVantage.fetchAV fetch "" fn t
    = Throw "Alpha Vantage API key not provided"
    /\ (key <> ""%string ->
        forall res,
          fetch url = Ok res ->
          (AlphaVantage.ok res = false ->
           AlphaVantage.fetchAV fetch key fn t
           = Throw ("Alpha Vantage "
                    ++ nat_to_string (AlphaVantage.status res))%string)
          /\ (AlphaVantage.ok res = true ->
              forall data,
                AlphaVantage.json res = Ok data ->
                (forall c m,
                    AlphaVantage.Error_Message data = Some (String c m) ->
                    AlphaVantage.fetchAV fetch key fn t = Throw (String c m))
                /\ (AlphaVantage.truthy (AlphaVantage.Error_Message data)
                    = false ->
                    AlphaVantage.truthy (AlphaVantage.Note data)
                    || AlphaVantage.truthy (AlphaVantage.Information data)
                    = true ->
                    AlphaVantage.fetchAV fetch key fn t
                    = Throw "Rate limit - wait 60s")
                /\ (AlphaVantage.truthy (AlphaVantage.Error_Message data)
                    = false ->
                    AlphaVantage.truthy (AlphaVantage.Note data)
                    || AlphaVantage.truthy (AlphaVantage.Information data)
                    = false ->
                    AlphaVantage.fetchAV fetch key fn t = Ok data))).
Proof.
  intros fetch key fn t url. split; [reflexivity |].
  intros Hk res Hres. rewrite (fetchAV_with_key fetch key fn t Hk).
  fold url. rewrite Hres. cbn [bind]. split.
  - intros ->. reflexivity.
  - intros -> data ->. cbn [negb bind]. repeat split.
    + intros c m ->. reflexivity.
    + intros He Hn.
      destruct (AlphaVantage.Error_Message data) as [[| c m] |];
        try discriminate; now rewrite Hn.
    + intros He Hn.
      destruct (AlphaVantage.Error_Message data) as [[| c m] |];
        try discriminate; now rewrite Hn.
Qed.

(** X28.  The Alpha Vantage handler checks the tickers before the key:
    without tickers the answer is "No tickers" whatever the key; with
    tickers and no key, or an empty key, it is "Alpha Vantage API key
    required"; and with a key only the first five tickers are looked
    up. *)
Theorem AlphaVantage_POST_guards :
  forall (parseFloat : string -> option R)
         (fetch : string -> Js.result AlphaVantage.HttpResponse),
    (forall apiKey,
        AlphaVantage.POST parseFloat fetch None apiKey
        = {| AlphaVantage.code := 400;
             AlphaVantage.body := AlphaVantage.Failure "No tickers" |}
        /\ AlphaVantage.POST parseFloat fetch (Some []) apiKey
           = {| AlphaVantage.code := 400;
                AlphaVantage.body := AlphaVantage.Failure "No tickers" |})
    /\ (forall t tickers,
           AlphaVantage.POST parseFloat fetch (Some (t :: tickers)) None
           = {| AlphaVantage.code := 400;
                AlphaVantage.body :=
                  AlphaVantage.Failure "Alpha Vantage API key required" |}
           /\ AlphaVantage.POST parseFloat fetch (Some (t :: tickers))
                (Some ""%string)
              = {| AlphaVantage.code := 400;
                   AlphaVantage.body :=
                     AlphaVantage.Failure "Alpha Vantage API key required" |})
    /\ (forall tickers apiKey,
           AlphaVantage.POST parseFloat fetch (Some tickers) apiKey
           = AlphaVantage.POST parseFloat fetch (Some (firstn 5 tickers))
               apiKey).
Proof.
  intros parseFloat fetch. repeat split.
  intros tickers apiKey.
  destruct tickers as [| t0 tickers]; [reflexivity |].
  assert (H5 : firstn 5 (t0 :: tickers) = t0 :: firstn 4 tickers)
    by reflexivity.
  rewrite H5. unfold AlphaVantage.POST. cbv beta iota.
  destruct apiKey as [[| c key] |]; try reflexivity.
  rewrite <- H5, firstn_firstn. reflexivity.
Qed.

Lemma deriveMetrics_bridge (parseFloat : string -> option R)
    (income cashFlow : list AlphaVantage.Report)
    (overview : AlphaVantage.AvJson) :
  AlphaVantage.deriveMetrics parseFloat income cashFlow overview
  = Lookup.deriveMetrics
      (map (AlphaVantage.asIncome parseFloat) income)
      (map (AlphaVantage.asCashflow parseFloat) cashFlow)
      (AlphaVantage.asSummary parseFloat income cashFlow overview).
Proof.
  unfold Lookup.deriveMetrics.
  change Lookup.no_income
    with (AlphaVantage.asIncome parseFloat AlphaVantage.no_report).
  change Lookup.no_cashFlow
    with (AlphaVantage.asCashflow parseFloat AlphaVantage.no_report).
  rewrite !map_nth.
  rewrite !rev_asIncome, !opInc_asIncome, !eps_asIncome, !fcf_asCashflow.
  cbn [Lookup.beta Lookup.returnOnEquity AlphaVantage.asSummary].
  rewrite <- roic_agrees. reflexivity.
Qed.

(** X29.  The two routes derive the same metrics: the metrics the Alpha
    Vantage route derives from its reports and overview are those the
    Yahoo route derives from the same figures once parsed, with reported
    earnings per share in the place of net income. *)
Theorem routes_derive_same_metrics :
  forall (parseFloat : string -> option R)
         (income cashFlow : list AlphaVantage.Report)
         (overview : AlphaVantage.AvJson),
    AlphaVantage.deriveMetrics parseFloat income cashFlow overview
    = Lookup.deriveMetrics
        (map (AlphaVantage.asIncome parseFloat) income)
        (map (AlphaVantage.asCashflow parseFloat) cashFlow)
        (AlphaVantage.asSummary parseFloat income cashFlow overview).
Proof.
  intros parseFloat income cashFlow overview.
  unfold AlphaVantage.deriveMetrics, Lookup.deriveMetrics.
  change Lookup.no_income
    with (AlphaVantage.asIncome parseFloat AlphaVantage.no_report).
  change Lookup.no_cashFlow
    with (AlphaVantage.asCashflow parseFloat AlphaVantage.no_report).
  rewrite !map_nth.
  rewrite !rev_asIncome, !opInc_asIncome, !eps_asIncome, !fcf_asCashflow.
  cbn [Lookup.beta Lookup.returnOnEquity AlphaVantage.asSummary].
  rewrite <- roic_agrees. reflexivity.
Qed.

(** The answer of the Yahoo route when its provider has enough
    history, written out. *)
Lemma fetchCompanyData_answer
    (quoteSummary : string -> Js.result Lookup.QuoteSummary) (t : string)
    (summary : Lookup.QuoteSummary) (income : list Lookup.IncomeStatement)
    (cashFlow : list Lookup.CashflowStatement) :
  quoteSummary t = Ok summary ->
  Lookup.incomeStatementHistory summary = Some income ->
  Lookup.cashflowStatements summary = Some cashFlow ->
  (4 <= List.length income)%nat -> (4 <= List.length cashFlow)%nat ->
  Lookup.fetchCompanyData quoteSummary t
  = let m := Lookup.deriveMetrics income cashFlow summary in
    let gi := calculateGrowthIndex m DEFAULT_WEIGHTS in
    Ok {| Lookup.ticker := toUpperCase t;
          Lookup.name :=
            or_str (Lookup.longName summary)
              (or_str (Lookup.shortName summary) t);
          Lookup.growthIndex := growthIndex gi;
          Lookup.baseScore := baseScore gi;
          Lookup.consistencyFactor := consistencyFactor gi;
          Lookup.qualityFactor := qualityFactor gi;
          Lookup.metrics :=
            {| Lookup.revenueCagr := Math_round (revenueCagr m * 10) / 10;
               Lookup.epsCagr := Math_round (epsCagr m * 10) / 10;
               Lookup.fcfCagr := Math_round (fcfCagr m * 10) / 10;
               Lookup.marginDelta := Math_round (marginDelta m * 10) / 10;
               Lookup.roic := Math_round (roic m * 10) / 10;
               Lookup.wacc := Math_round (wacc m * 10) / 10 |};
          Lookup.interpretation := interpretGrowthIndex (growthIndex gi);
          Lookup.weights :=
            {| revenue := 0.30; eps := 0.25; fcf := 0.25; margin := 0.20 |}
       |}.
Proof.
  intros Hq Hi Hc Hli Hlc. unfold Lookup.fetchCompanyData, bind.
  rewrite Hq, Hi, Hc.
  destruct income as [| y income]; [simpl in Hli; lia |].
  destruct (Nat.ltb_spec (List.length (y :: income)) 4); [lia |].
  destruct cashFlow as [| c cashFlow]; [simpl in Hlc; lia |].
  destruct (Nat.ltb_spec (List.length (c :: cashFlow)) 4); [lia |].
  reflexivity.
Qed.

(** What a successful Alpha Vantage [fetchCompanyData] fetched. *)
Lemma AlphaVantage_fetchCompanyData_Ok (parseFloat : string -> option R)
    (fetch : string -> Js.result AlphaVantage.HttpResponse)
    (key t : string) (data : AlphaVantage.CompanyData) :
  AlphaVantage.fetchCompanyData parseFloat fetch key t = Ok data ->
  exists incomeData cashFlowData overview income cashFlow,
    AlphaVantage.fetchAV fetch key "INCOME_STATEMENT" t = Ok incomeData
    /\ AlphaVantage.fetchAV fetch key "CASH_FLOW" t = Ok cashFlowData
    /\ AlphaVantage.fetchAV fetch key "OVERVIEW" t = Ok overview
    /\ AlphaVantage.annualReports incomeData = Some income
    /\ AlphaVantage.annualReports cashFlowData = Some cashFlow
    /\ (4 <= List.length income)%nat
    /\ (4 <= List.length cashFlow)%nat
    /\ Lookup.fetchCompanyData
         (fun _ =>
            Ok (AlphaVantage.asSummary parseFloat income cashFlow overview))
         t
       = Ok {| Lookup.ticker := AlphaVantage.ticker data;
               Lookup.name := AlphaVantage.name data;
               Lookup.growthIndex := AlphaVantage.growthIndex data;
               Lookup.baseScore := AlphaVantage.baseScore data;
               Lookup.consistencyFactor :=
                 AlphaVantage.consistencyFactor data;
               Lookup.qualityFactor := AlphaVantage.qualityFactor data;
               Lookup.metrics := AlphaVantage.metrics data;
               Lookup.interpretation := AlphaVantage.interpretation data;
               Lookup.weights :=
                 {| revenue := 0.30; eps := 0.25; fcf := 0.25;
                    margin := 0.20 |} |}.
Proof.
  unfold AlphaVantage.fetchCompanyData, bind.
  destruct (AlphaVantage.fetchAV fetch key "INCOME_STATEMENT" t)
    as [incomeData | m1]; [| discriminate].
  destruct (AlphaVantage.fetchAV fetch key "CASH_FLOW" t)
    as [cashFlowData | m2]; [| discriminate].
  destruct (AlphaVantage.fetchAV fetch key "OVERVIEW" t)
    as [overview | m3]; [| discriminate].
  destruct (AlphaVantage.annualReports incomeData) as [income |] eqn:Hi;
    [| discriminate].
  destruct income as [| y income]; [discriminate |].
  destruct (Nat.ltb_spec (List.length (y :: income)) 4) as [| Hli];
    [discriminate |].
  destruct (AlphaVantage.annualReports cashFlowData) as [cashFlow |] eqn:Hc;
    [| discriminate].
  destruct cashFlow as [| c cashFlow]; [discriminate |].
  destruct (Nat.ltb_spec (List.length (c :: cashFlow)) 4) as [| Hlc];
    [discriminate |].
  intros H.
  match type of H with
  | Ok ?d = _ => assert (Hd : d = data) by congruence
  end.
  clear H. subst data.
  exists incomeData, cashFlowData, overview, (y :: income), (c :: cashFlow).
  split; [reflexivity |]. split; [reflexivity |]. split; [reflexivity |].
  split; [exact Hi |]. split; [exact Hc |].
  split; [exact Hli |]. split; [exact Hlc |].
  rewrite (fetchCompanyData_answer _ t
             (AlphaVantage.asSummary parseFloat (y :: income) (c :: cashFlow)
                overview)
             (map (AlphaVantage.asIncome parseFloat) (y :: income))
             (map (AlphaVantage.asCashflow parseFloat) (c :: cashFlow))
             eq_refl eq_refl eq_refl)
    by (rewrite length_map; assumption).
  cbv zeta. rewrite <- deriveMetrics_bridge.
  cbn [AlphaVantage.ticker AlphaVantage.name AlphaVantage.growthIndex
       AlphaVantage.baseScore AlphaVantage.consistencyFactor
       AlphaVantage.qualityFactor AlphaVantage.metrics
       AlphaVantage.interpretation].
  do 2 f_equal.
Qed.

(** X30.  For the same figures both routes report the same company: a
    successful answer of the Alpha Vantage route has the ticker, name,
    growth index, base score, factors, metrics and interpretation that
    the Yahoo route returns when its provider gives the parsed reports
    and overview. *)
Theorem routes_report_same_company :
  forall (parseFloat : string -> option R)
         (fetch : string -> Js.result AlphaVantage.HttpResponse)
         (key t : string) (data : AlphaVantage.CompanyData),
    AlphaVantage.fetchCompanyData parseFloat fetch key t = Ok data ->
    exists incomeData cashFlowData overview income cashFlow yahoo,
      AlphaVantage.fetchAV fetch key "INCOME_STATEMENT" t = Ok incomeData
      /\ AlphaVantage.fetchAV fetch key "CASH_FLOW" t = Ok cashFlowData
      /\ AlphaVantage.fetchAV fetch key "OVERVIEW" t = Ok overview
      /\ AlphaVantage.annualReports incomeData = Some income
      /\ AlphaVantage.annualReports cashFlowData = Some cashFlow
      /\ Lookup.fetchCompanyData
           (fun _ =>
              Ok (AlphaVantage.asSummary parseFloat income cashFlow overview))
           t
         = Ok yahoo
      /\ Lookup.ticker yahoo = AlphaVantage.ticker data
      /\ Lookup.name yahoo = AlphaVantage.name data
      /\ Lookup.growthIndex yahoo = AlphaVantage.growthIndex data
      /\ Lookup.baseScore yahoo = AlphaVantage.baseScore data
      /\ Lookup.consistencyFactor yahoo = AlphaVantage.consistencyFactor data
      /\ Lookup.qualityFactor yahoo = AlphaVantage.qualityFactor data
      /\ Lookup.metrics yahoo = AlphaVantage.metrics data
      /\ Lookup.interpretation yahoo = AlphaVantage.interpretation data.
Proof.
  intros parseFloat fetch key t data H.
  destruct (AlphaVantage_fetchCompanyData_Ok _ _ _ _ _ H)
    as (incomeData & cashFlowData & overview & income & cashFlow
        & H1 & H2 & H3 & Hi & Hc & _ & _ & Hy).
  exists incomeData, cashFlowData, overview, income, cashFlow.
  eexists. repeat split; try eassumption; reflexivity.
Qed.

Lemma sample_av_pipeline :
  exists data,
    AlphaVantage.fetchCompanyData Sample.parseFloat Sample.av_fetch "demo"
      "SMPL" = Ok data.
Proof. eexists. reflexivity. Qed.

Lemma routes_report_same_company_witness :
  exists data yahoo,
    AlphaVantage.fetchCompanyData Sample.parseFloat Sample.av_fetch "demo"
      "SMPL" = Ok data
    /\ Lookup.growthIndex yahoo = AlphaVantage.growthIndex data.
Proof.
  destruct sample_av_pipeline as [data H]. exists data.
  destruct (routes_report_same_company Sample.parseFloat Sample.av_fetch
              "demo" "SMPL" data H)
    as (_ & _ & _ & _ & _ & yahoo & _ & _ & _ & _ & _ & _ & _ & _ & Hg & _).
  exists yahoo. split; [exact H | exact Hg].
Defined.

Lemma fetchAV_outcomes_witness :
  AlphaVantage.fetchAV Sample.av_fetch_limited "demo" "OVERVIEW" "SMPL"
  = Throw "Rate limit - wait 60s".
Proof.
  assert (Hk : "demo"%string <> ""%string) by discriminate.
  exact (proj1 (proj2 (proj2 (proj2 (fetchAV_outcomes Sample.av_fetch_limited
                                       "demo" "OVERVIEW" "SMPL") Hk
                                      _ eq_refl) eq_refl _ eq_refl))
           eq_refl eq_refl).
Defined.

End AlphaVantageClaims.
